(** * classify.py: ranking, alert rules and report rendering

    A shallow embedding of the decision layer of [classify.py]:
    [classify_audio] (the ranking step), [check_alerts] (the alert rules)
    and [print_results] (the report), together with the part of [main] that
    connects them.

    Python values are modelled as follows.
    - [float] is IEEE 754 binary64, taken from the Standard Library's
      [SpecFloat] with [prec = 53] and [emax = 1024]; [<] is [SFltb],
      [==] is [SFeqb], [*] is [SFmul].
    - [str] is [string]: the UTF-8 bytes of the text.
    - [int] is [Z].
    - [print] appends one record to the standard output; an uncaught
      exception ends the run with the output printed so far. *)

From Stdlib Require Import ZArith QArith List Bool Lia.
From Stdlib Require Import Sorted Permutation.
From Stdlib Require Import Ascii String DecimalString.
From Stdlib Require Import SpecFloat.
Import ListNotations.

Local Open Scope Z_scope.

(** ** Python floats *)

Module PyFloat.

Definition prec : Z := 53.
Definition emax : Z := 1024.

Definition float := spec_float.

(** The values a Python float can hold: canonical binary64 numbers. *)
Definition is_float (x : float) : bool := valid_binary prec emax x.

Definition is_nan (x : float) : bool :=
  match x with S754_nan => true | _ => false end.

Definition is_finite (x : float) : bool :=
  match x with S754_zero _ | S754_finite _ _ _ => true | _ => false end.

Definition lt (x y : float) : bool := SFltb x y.
Definition eq (x y : float) : bool := SFeqb x y.
Definition mul (x y : float) : float := SFmul prec emax x y.

(** Float literals that occur in the source or in the examples, as
    mantissa and exponent of the nearest binary64 number. *)
Definition f0_5 : float := S754_finite false 4503599627370496 (-53).
Definition f0_3 : float := S754_finite false 5404319552844595 (-54).
Definition f0_4999 : float := S754_finite false 9005397814890044 (-54).
Definition f0_25 : float := S754_finite false 4503599627370496 (-54).
Definition f0_82 : float := S754_finite false 7385903388887613 (-53).
Definition f0_65 : float := S754_finite false 5854679515581645 (-53).
Definition f1_0 : float := S754_finite false 4503599627370496 (-52).
Definition f100 : float := S754_finite false 7036874417766400 (-46).

(** The magnitude of a finite float in units of [2^-1074], the spacing of
    the smallest binary64 numbers: every finite binary64 number is an
    integer number of such units. *)
Definition mag (m : positive) (e : Z) : Z := Z.pos m * 2 ^ (e + 1074).

(** The value of a float in those units; zero for what is not finite. *)
Definition units (x : float) : Z :=
  match x with
  | S754_finite s m e => cond_Zopp s (mag m e)
  | _ => 0
  end.

(** The value of a finite float as a rational number. *)
Definition value (x : float) : Q := Qmake (units x) (2 ^ 1074)%positive.

(** [x] is the float a decimal literal of value [n / d] denotes: a
    canonical binary64 number at most half a unit in the last place away
    from [n / d]. *)
Definition is_literal (x : float) (n d : Z) : bool :=
  match x with
  | S754_finite _ m e =>
      is_float x
      && (Z.abs (2 * d * units x - 2 * n * 2 ^ 1074) <=? d * 2 ^ (e + 1074))
  | _ => false
  end.

(** [x <= y] *)
Definition le (x y : float) : bool := SFleb x y.

(** A float that is not NaN is placed by its class (negative infinity,
    negative, zero, positive, positive infinity), then by its exponent,
    then by its mantissa; for negative numbers the last two count
    downwards. *)
Definition place (x : float) : Z * Z * Z :=
  match x with
  | S754_infinity true => (-2, 0, 0)
  | S754_finite true m e => (-1, - e, - Z.pos m)
  | S754_zero _ => (0, 0, 0)
  | S754_finite false m e => (1, e, Z.pos m)
  | S754_infinity false => (2, 0, 0)
  | S754_nan => (3, 0, 0)
  end.

Definition lex_lt (a b : Z * Z * Z) : Prop :=
  let '(a1, a2, a3) := a in
  let '(b1, b2, b3) := b in
  a1 < b1 \/ (a1 = b1 /\ (a2 < b2 \/ (a2 = b2 /\ a3 < b3))).

End PyFloat.

(** ** Python strings and formatting *)

Module PyStr.

Local Open Scope string_scope.

(** [s * n] *)
Fixpoint repeat_str (s : string) (n : nat) : string :=
  match n with
  | O => EmptyString
  | S k => s ++ repeat_str s k
  end.

(** [str(i)] for an integer. *)
Definition str_of_int (i : Z) : string := NilZero.string_of_int (Z.to_int i).

Definition is_upper_ascii (c : ascii) : bool :=
  ((65 <=? nat_of_ascii c) && (nat_of_ascii c <=? 90))%nat.

Definition lower_ascii_char (c : ascii) : ascii :=
  if is_upper_ascii c then ascii_of_nat (nat_of_ascii c + 32) else c.

(** [str.lower] restricted to the letters A-Z; every other byte is kept. *)
Fixpoint lower_ascii (s : string) : string :=
  match s with
  | EmptyString => EmptyString
  | String c r => String (lower_ascii_char c) (lower_ascii r)
  end.

(** Text made of ASCII characters only. *)
Fixpoint is_ascii (s : string) : bool :=
  match s with
  | EmptyString => true
  | String c r => (nat_of_ascii c <? 128)%nat && is_ascii r
  end.

(** [x in l] for a list of strings: [==] against each item in turn. *)
Definition str_in (x : string) (l : list string) : bool :=
  existsb (String.eqb x) l.

(** Round to nearest, ties to even, of [n / d] for [0 <= n] and [0 < d]. *)
Definition div_half_even (n d : Z) : Z :=
  let q := (n / d)%Z in
  let r := (n mod d)%Z in
  match (2 * r ?= d)%Z with
  | Lt => q
  | Gt => (q + 1)%Z
  | Eq => if Z.even q then q else (q + 1)%Z
  end.

(** The number of tenths in the correctly rounded one-decimal rendering of
    the magnitude [m * 2^e]. *)
Definition tenths (m : positive) (e : Z) : Z :=
  if (0 <=? e)%Z then (Z.pos m * 2 ^ e * 10)%Z
  else div_half_even (Z.pos m * 10) (2 ^ (- e)).

Definition sign_str (s : bool) : string := if s then "-" else "".

(** [format(x, '.1f')]: fixed notation, one digit after the point,
    correctly rounded from the exact binary value. *)
Definition format_f1 (x : PyFloat.float) : string :=
  match x with
  | S754_nan => "nan"
  | S754_infinity s => sign_str s ++ "inf"
  | S754_zero s => sign_str s ++ "0.0"
  | S754_finite s m e =>
      let t := tenths m e in
      sign_str s ++ str_of_int (t / 10) ++ "." ++ str_of_int (t mod 10)
  end.

(** [format(x, '.1%')]: the value is multiplied by 100 as a float, rendered
    with ['.1f'] and followed by a percent sign. *)
Definition format_pct1 (x : PyFloat.float) : string :=
  format_f1 (PyFloat.mul x PyFloat.f100) ++ "%".

End PyStr.

(** ** Output and exceptions *)

Inductive exn : Set := IndexError.

Inductive outcome (A : Type) : Type :=
| Ok (a : A)
| Raised (e : exn).
Arguments Ok {A} a.
Arguments Raised {A} e.

(** A computation prints records to the standard output and then either
    returns a value or raises. *)
Definition M (A : Type) : Type := (list string * outcome A)%type.

Definition ret {A} (a : A) : M A := ([], Ok a).

Definition raise {A} (e : exn) : M A := ([], Raised e).

Definition bind {A B} (m : M A) (f : A -> M B) : M B :=
  match m with
  | (out, Ok a) => let (out', r) := f a in (out ++ out', r)
  | (out, Raised e) => (out, Raised e)
  end.

Notation "x <- m ;; k" := (bind m (fun x => k))
  (at level 61, m at next level, right associativity).
Notation "m ;;; k" := (bind m (fun _ => k))
  (at level 61, right associativity).

(** [print(s)] *)
Definition print (s : string) : M unit := ([s], Ok tt).

(** [for x in l: body(x)] *)
Fixpoint for_each {A} (l : list A) (body : A -> M unit) : M unit :=
  match l with
  | [] => ret tt
  | x :: r => body x ;;; for_each r body
  end.

Definition stdout {A} (m : M A) : list string := fst m.
Definition result {A} (m : M A) : outcome A := snd m.

(** ** Python lists *)

Module PyList.

(** [l[i]]: negative indices count from the end, an index out of range
    raises [IndexError]. *)
Definition getitem {A} (l : list A) (i : Z) : M A :=
  let n := Z.of_nat (List.length l) in
  let j := if i <? 0 then i + n else i in
  if (j <? 0) || (n <=? j) then raise IndexError
  else match nth_error l (Z.to_nat j) with
       | Some x => ret x
       | None => raise IndexError
       end.

(** [l[:n]]: a negative bound counts from the end, and bounds are
    clamped to the list, so a slice never raises. *)
Definition slice_to {A} (l : list A) (n : Z) : list A :=
  let len := Z.of_nat (List.length l) in
  let k := if n <? 0 then Z.max 0 (n + len) else Z.min n len in
  firstn (Z.to_nat k) l.

(** [enumerate(l, start)] *)
Fixpoint enumerate {A} (l : list A) (start : Z) : list (Z * A) :=
  match l with
  | [] => []
  | x :: r => (start, x) :: enumerate r (start + 1)
  end.

Section Sorted.
Context {A : Type}.
Variable key : A -> PyFloat.float.

(** Insertion for a descending stable sort: [x] comes from before every
    item of [l] in the input, so it passes only the items whose key is
    strictly greater. *)
Fixpoint insert_desc (x : A) (l : list A) : list A :=
  match l with
  | [] => [x]
  | y :: r =>
      if PyFloat.lt (key x) (key y) then y :: insert_desc x r
      else x :: y :: r
  end.

(** [sorted(l, key=key, reverse=True)]: the built-in sort compares keys
    with [<] only and is stable, also when reversed.  When no key is NaN
    that fixes its result, which is the list computed here; with a NaN key
    [<] is no longer an order and the result of the built-in depends on
    how it merges, which is not modelled. *)
Fixpoint sorted_rev (l : list A) : list A :=
  match l with
  | [] => []
  | x :: r => insert_desc x (sorted_rev r)
  end.

(** No key is NaN. *)
Definition keys_ordered (l : list A) : Prop :=
  Forall (fun a => PyFloat.is_nan (key a) = false) l.

(** [a] may stand before [b] in a descending list. *)
Definition ge_key (a b : A) : Prop := PyFloat.le (key b) (key a) = true.

(** The items whose key equals [s], in their order in [l]. *)
Definition with_key (s : PyFloat.float) (l : list A) : list A :=
  filter (fun a => PyFloat.eq (key a) s) l.
End Sorted.

End PyList.

(** ** The program *)

Local Open Scope string_scope.

(** A prediction of the classifier: a dictionary with the keys ['label']
    and ['score']. *)
Record Prediction : Type := mkPrediction {
  label : string;
  score : PyFloat.float
}.

(** The line feed character. *)
Definition LF : string := String (ascii_of_nat 10) EmptyString.

Definition LOW_CONFIDENCE_THRESHOLD : PyFloat.float := PyFloat.f0_5.
Definition UNKNOWN_SOUND_THRESHOLD : PyFloat.float := PyFloat.f0_3.

Definition RARE_SPECIES : list string :=
  [ "spotted owl";
    "california condor";
    "whooping crane";
    "ivory-billed woodpecker" ].

(** The three alert texts of [check_alerts]. *)
Definition ALERT_RARE_SPECIES : string :=
  "🦉 RARE_SPECIES: Обнаружен редкий вид!".
Definition ALERT_LOW_CONFIDENCE : string :=
  "⚠️ LOW_CONFIDENCE: Модель не уверена в результате".
Definition ALERT_UNKNOWN_SOUND : string :=
  "❓ UNKNOWN_SOUND: Возможно неизвестный вид или шум".

Section Classify.

(** [str.lower]: the case mapping of the Python runtime, over all of
    Unicode. *)
Variable lower : string -> string.

(** [classify_audio(file_path, classifier)] *)
Definition classify_audio (file_path : string)
    (classifier : string -> list Prediction) : M (list Prediction) :=
  print "Классифицирую..." ;;;
  let preds := classifier file_path in
  let preds_sorted := PyList.sorted_rev score preds in
  ret preds_sorted.

(** [check_alerts(pred_label, pred_score)] *)
Definition check_alerts (pred_label : string) (pred_score : PyFloat.float)
    : list string :=
  let alerts : list string := [] in
  let alerts :=
    if PyStr.str_in (lower pred_label) (map lower RARE_SPECIES)
    then (alerts ++ [ALERT_RARE_SPECIES])%list else alerts in
  let alerts :=
    if PyFloat.lt pred_score LOW_CONFIDENCE_THRESHOLD
    then (alerts ++ [ALERT_LOW_CONFIDENCE])%list else alerts in
  let alerts :=
    if PyFloat.lt pred_score UNKNOWN_SOUND_THRESHOLD
    then (alerts ++ [ALERT_UNKNOWN_SOUND])%list else alerts in
  alerts.

(** [print_results(predictions, top_n)] *)
Definition print_results (predictions : list Prediction) (top_n : Z)
    : M unit :=
  print (LF ++ PyStr.repeat_str "=" 50) ;;;
  print "РЕЗУЛЬТАТЫ КЛАССИФИКАЦИИ" ;;;
  print (PyStr.repeat_str "=" 50) ;;;
  top1 <- PyList.getitem predictions 0 ;;
  print (LF ++ "🐦 Вид: " ++ label top1) ;;;
  print ("📊 Уверенность: " ++ PyStr.format_pct1 (score top1)) ;;;
  let alerts := check_alerts (label top1) (score top1) in
  (match alerts with
   | [] => ret tt
   | _ :: _ =>
       print (LF ++ PyStr.repeat_str "-" 30) ;;;
       print "ОПОВЕЩЕНИЯ:" ;;;
       for_each alerts (fun alert => print ("  " ++ alert))
   end) ;;;
  print (LF ++ PyStr.repeat_str "-" 30) ;;;
  print ("Топ-" ++ PyStr.str_of_int top_n ++ " предсказания:") ;;;
  for_each (PyList.enumerate (PyList.slice_to predictions top_n) 1)
    (fun '(i, pred) =>
       print ("  " ++ PyStr.str_of_int i ++ ". " ++ label pred
                   ++ " (" ++ PyStr.format_pct1 (score pred) ++ ")")) ;;;
  print (PyStr.repeat_str "=" 50).

(** *** The parts of the printed report

    The records [print_results] prints, part by part, for stating what a
    run prints: the banner, the top prediction, the alert block (present
    when there is an alert), the heading of the ranking, its numbered
    lines and the closing rule. *)
Definition banner_lines : list string :=
  [ LF ++ PyStr.repeat_str "=" 50;
    "РЕЗУЛЬТАТЫ КЛАССИФИКАЦИИ";
    PyStr.repeat_str "=" 50 ].

Definition top_lines (top1 : Prediction) : list string :=
  [ LF ++ "🐦 Вид: " ++ label top1;
    "📊 Уверенность: " ++ PyStr.format_pct1 (score top1) ].

Definition alert_line (alert : string) : string := "  " ++ alert.

Definition alert_block (alerts : list string) : list string :=
  match alerts with
  | [] => []
  | _ :: _ =>
      (LF ++ PyStr.repeat_str "-" 30) :: "ОПОВЕЩЕНИЯ:"
        :: map alert_line alerts
  end.

Definition ranked_header (top_n : Z) : list string :=
  [ LF ++ PyStr.repeat_str "-" 30;
    "Топ-" ++ PyStr.str_of_int top_n ++ " предсказания:" ].

Definition ranked_line (ip : Z * Prediction) : string :=
  let (i, pred) := ip in
  "  " ++ PyStr.str_of_int i ++ ". " ++ label pred
       ++ " (" ++ PyStr.format_pct1 (score pred) ++ ")".

Definition ranked_lines (predictions : list Prediction) (top_n : Z)
    : list string :=
  map ranked_line (PyList.enumerate (PyList.slice_to predictions top_n) 1).

Definition footer_line : string := PyStr.repeat_str "=" 50.

(** The default of [top_n]. *)
Definition default_top_n : Z := 3.

(** The last two steps of [main]: classify, then print the results. *)
Definition main_report (audio_path : string)
    (classifier : string -> list Prediction) : M unit :=
  predictions <- classify_audio audio_path classifier ;;
  print_results predictions default_top_n.

End Classify.

(** ** Case folding

    [str.casefold] is not used by the program; it is what "case-folded"
    means for a Python string, and differs from [str.lower]. *)

Module PyCase.

(** The two bytes of the long s, U+017F, in UTF-8. *)
Definition is_long_s (c1 c2 : ascii) : bool :=
  (Nat.eqb (nat_of_ascii c1) 197 && Nat.eqb (nat_of_ascii c2) 191)%bool.

(** [str.casefold] on text made of ASCII characters and the long s: the
    letters A-Z go to a-z and the long s goes to s.  On the same text
    [str.lower] changes A-Z only and keeps the long s, as
    [PyStr.lower_ascii] does. *)
Fixpoint casefold (s : string) : string :=
  match s with
  | EmptyString => EmptyString
  | String c1 t =>
      match t with
      | EmptyString => String (PyStr.lower_ascii_char c1) EmptyString
      | String c2 r =>
          if is_long_s c1 c2 then String "s" (casefold r)
          else String (PyStr.lower_ascii_char c1) (casefold t)
      end
  end.

End PyCase.

(** ** The rest of the program: paths, the network, files and [main] *)

(** *** String methods and [os.path.join] *)

Module PyPath.

(** [s.startswith(p)] *)
Fixpoint startswith (s p : string) {struct p} : bool :=
  match p with
  | EmptyString => true
  | String a p' =>
      match s with
      | EmptyString => false
      | String b s' => Ascii.eqb a b && startswith s' p'
      end
  end.

(** [s.endswith(suffix)]: [s] is the suffix, or what follows its first
    character ends with it. *)
Fixpoint endswith (s suffix : string) : bool :=
  String.eqb s suffix
  || match s with
     | EmptyString => false
     | String _ r => endswith r suffix
     end.

(** The scan of [str.replace] for a non-empty [old]: occurrences are taken
    from the left and do not overlap.  [skip] counts the characters of the
    occurrence just replaced that are still to be passed over. *)
Fixpoint replace_from (old new : string) (skip : nat) (s : string)
    : string :=
  match s with
  | EmptyString => EmptyString
  | String c r =>
      match skip with
      | S k => replace_from old new k r
      | O =>
          if startswith s old
          then new ++ replace_from old new (String.length old - 1) r
          else String c (replace_from old new O r)
      end
  end.

(** With an empty [old], [new] goes before every character and at the
    end. *)
Fixpoint replace_empty (new : string) (s : string) : string :=
  match s with
  | EmptyString => new
  | String c r => new ++ String c (replace_empty new r)
  end.

(** [s.replace(old, new)] *)
Definition replace (s old new : string) : string :=
  match old with
  | EmptyString => replace_empty new s
  | String _ _ => replace_from old new O s
  end.

(** [os.path.join(a, b)] on a POSIX system. *)
Definition join (a b : string) : string :=
  if startswith b "/" then b
  else if String.eqb a "" || endswith a "/" then a ++ b
  else a ++ "/" ++ b.

(** [old in s]: some suffix of [s] starts with [old]. *)
Fixpoint contains (s old : string) : bool :=
  startswith s old
  || match s with
     | EmptyString => false
     | String _ r => contains r old
     end.

(** What is still to be passed over of an occurrence of ".mp3" when [k]
    of its characters remain. *)
Definition mp3_rest (k : nat) : string :=
  match k with
  | 0 => ""
  | 1 => "3"
  | 2 => "p3"
  | _ => "mp3"
  end%nat.

End PyPath.

(** *** Processes

    A run of the program is a trace of events, the prints among them, ended
    by a value or by what stops it: [sys.exit], an exception of the program
    itself, or an exception raised by a library call. *)

(** The events are the calls made to the outside: [print],
    [requests.get], opening a file to write it, [librosa.load], [sf.write],
    [pipeline] and [tempfile.mkdtemp]. *)
Inductive event : Type :=
| Printed (s : string)
| HttpGet (url : string)
| FileWrite (path content : string)
| AudioLoad (path : string)
| AudioWrite (path : string)
| ModelLoad
| MkDTemp.

Inductive stop : Type :=
| SystemExit (code : Z)
| Uncaught (e : exn)
| LibraryError (msg : string).

Inductive ended (A : Type) : Type :=
| Done (a : A)
| Stopped (s : stop).
Arguments Done {A} a.
Arguments Stopped {A} s.

Definition P (A : Type) : Type := (list event * ended A)%type.

Definition pret {A} (a : A) : P A := ([], Done a).

Definition pstop {A} (s : stop) : P A := ([], Stopped s).

Definition pbind {A B} (m : P A) (f : A -> P B) : P B :=
  match m with
  | (tr, Done a) => let (tr', r) := f a in ((tr ++ tr')%list, r)
  | (tr, Stopped s) => (tr, Stopped s)
  end.

Declare Scope proc_scope.
Delimit Scope proc_scope with proc.
Notation "x <- m ;; k" := (pbind m (fun x => k))
  (at level 61, m at next level, right associativity) : proc_scope.
Notation "m ;;; k" := (pbind m (fun _ => k))
  (at level 61, right associativity) : proc_scope.

Definition emit (e : event) : P unit := ([e], Done tt).

(** [print(s)] in a process. *)
Definition pprint (s : string) : P unit := emit (Printed s).

(** [sys.exit(code)] *)
Definition sys_exit {A} (code : Z) : P A := pstop (SystemExit code).

(** A computation of the decision layer run inside a process. *)
Definition lift {A} (m : M A) : P A :=
  (map Printed (stdout m),
   match result m with
   | Ok a => Done a
   | Raised e => Stopped (Uncaught e)
   end).

(** [str(e)] for an exception. *)
Definition exn_message (s : stop) : string :=
  match s with
  | LibraryError msg => msg
  | Uncaught IndexError => "list index out of range"
  | SystemExit code => PyStr.str_of_int code
  end.

(** [try: body  except Exception as e: handler(e)]: [SystemExit] is not an
    [Exception] and passes through. *)
Definition try_except {A} (body : P A) (handler : stop -> P A) : P A :=
  match body with
  | (tr, Done a) => (tr, Done a)
  | (tr, Stopped (SystemExit code)) => (tr, Stopped (SystemExit code))
  | (tr, Stopped s) => let (tr', r) := handler s in ((tr ++ tr')%list, r)
  end.

(** The exit status of the interpreter after a run. *)
Definition exit_status {A} (m : P A) : Z :=
  match snd m with
  | Done _ => 0
  | Stopped (SystemExit code) => code
  | Stopped _ => 1
  end%Z.

Definition trace {A} (m : P A) : list event := fst m.

(** The records printed during a run, in order. *)
Definition printed {A} (m : P A) : list string :=
  flat_map (fun e => match e with Printed s => [s] | _ => [] end) (trace m).

(** *** The world outside the program

    What the library calls of [download_audio], [convert_to_wav] and [main]
    answer.  A call that can raise answers with the message of its
    exception instead; the exception is an [Exception], so that
    [except Exception] catches it: an interrupt of the run from outside
    ([KeyboardInterrupt]) is not part of a world.  Three calls are taken to
    succeed: the command line has been parsed, the model loads, and the
    temporary directory is made; the imports inside the functions succeed,
    printing works, and the classifier returns a list, as in
    [classify_audio]. *)
Record Response : Type := mkResponse {
  status_error : option string;
  content : string
}.

Record World : Type := mkWorld {
  Audio : Type;
  requests_get : string -> string + Response;
  write_binary : string -> string -> option string;
  librosa_load : string -> string + Audio;
  sf_write : string -> Audio -> option string;
  path_exists : string -> bool;
  mkdtemp : string;
  pipeline : string -> list Prediction
}.

Section Main.
Variable w : World.
Variable lower : string -> string.

Local Open Scope proc_scope.

(** [requests.get(url, timeout=30)] *)
Definition http_get (url : string) : P Response :=
  emit (HttpGet url) ;;;
  match requests_get w url with
  | inl msg => pstop (LibraryError msg)
  | inr resp => pret resp
  end.

(** [resp.raise_for_status()] *)
Definition raise_for_status (resp : Response) : P unit :=
  match status_error resp with
  | Some msg => pstop (LibraryError msg)
  | None => pret tt
  end.

(** [with open(path, "wb") as f: f.write(data)] *)
Definition write_file (path data : string) : P unit :=
  emit (FileWrite path data) ;;;
  match write_binary w path data with
  | Some msg => pstop (LibraryError msg)
  | None => pret tt
  end.

(** [download_audio(url, output_path)] *)
Definition download_audio (url output_path : string) : P bool :=
  pprint ("Скачиваю: " ++ url) ;;;
  try_except
    (resp <- http_get url ;;
     raise_for_status resp ;;;
     write_file output_path (content resp) ;;;
     pprint ("Сохранено: " ++ output_path) ;;;
     pret true)
    (fun e =>
       pprint ("Ошибка при скачивании: " ++ exn_message e) ;;;
       pret false).

(** [convert_to_wav(input_path, output_path)] *)
Definition convert_to_wav (input_path output_path : string) : P string :=
  pprint "Конвертирую в wav..." ;;;
  y_sr <- (emit (AudioLoad input_path) ;;;
           match librosa_load w input_path with
           | inl msg => pstop (LibraryError msg)
           | inr a => pret a
           end) ;;
  (emit (AudioWrite output_path) ;;;
   match sf_write w output_path y_sr with
   | Some msg => pstop (LibraryError msg)
   | None => pret tt
   end) ;;;
  pprint ("Конвертировано: " ++ output_path) ;;;
  pret output_path.

(** The truth value of an option of the command line: [None] and the empty
    string are false. *)
Definition truthy (arg : option string) : bool :=
  match arg with
  | Some (String _ _) => true
  | _ => false
  end.

(** [main()], from the parsed arguments [args.url] and [args.file] on. *)
Definition main (args_url args_file : option string) : P unit :=
  (if negb (truthy args_url) && negb (truthy args_file) then
     pprint "Ошибка: укажи --url или --file" ;;;
     pprint "Пример: python classify.py --file recording.mp3" ;;;
     sys_exit 1
   else pret tt) ;;;
  pprint "Загружаю модель..." ;;;
  classifier <- (emit ModelLoad ;;; pret (pipeline w)) ;;
  pprint "Модель загружена!" ;;;
  audio_path <-
    (match args_url with
     | Some (String _ _ as url) =>
         temp_dir <- (emit MkDTemp ;;; pret (mkdtemp w)) ;;
         let audio_path := PyPath.join temp_dir "audio.mp3" in
         ok <- download_audio url audio_path ;;
         (if negb ok then sys_exit 1 else pret tt) ;;;
         pret audio_path
     | _ =>
         match args_file with
         | Some audio_path =>
             (if negb (path_exists w audio_path) then
                pprint ("Ошибка: файл не найден: " ++ audio_path) ;;;
                sys_exit 1
              else pret tt) ;;;
             pret audio_path
         | None =>
             (* [os.path.exists(None)] raises [TypeError]; the first test
                of [main] keeps the run from coming here *)
             pstop (LibraryError "TypeError")
         end
     end) ;;
  audio_path <-
    (if PyPath.endswith audio_path ".mp3" then
       let wav_path := PyPath.replace audio_path ".mp3" ".wav" in
       convert_to_wav audio_path wav_path ;;;
       pret wav_path
     else pret audio_path) ;;
  lift (bind (classify_audio audio_path classifier)
          (fun predictions => print_results lower predictions default_top_n)).

End Main.

(** The recording [main] works on, from its arguments: the file of the
    download when a URL is given, the file named otherwise. *)
Definition source_path (w : World) (args_url args_file : option string)
    : option string :=
  match args_url with
  | Some (String _ _) => Some (PyPath.join (mkdtemp w) "audio.mp3")
  | _ => args_file
  end.

(** The path [main] hands to the classifier for a recording at [path]. *)
Definition path_to_classify (path : string) : string :=
  if PyPath.endswith path ".mp3" then PyPath.replace path ".mp3" ".wav"
  else path.

(** A world for examples: every call gives the same answer whatever its
    arguments. *)
Definition sample_world (get : string + Response)
    (write_error load_error : option string) (file_exists : bool)
    (predictions : list Prediction) : World :=
  {| Audio := unit;
     requests_get := fun _ => get;
     write_binary := fun _ _ => write_error;
     librosa_load := fun _ =>
       match load_error with Some msg => inl msg | None => inr tt end;
     sf_write := fun _ _ => None;
     path_exists := fun _ => file_exists;
     mkdtemp := "/tmp/tmpk3x9q2";
     pipeline := fun _ => predictions |}.

(** * Properties *)

(** ** The order of floats *)

Module PyFloatFacts.
Import PyFloat.

Local Open Scope Z_scope.

Ltac split_compare :=
  repeat match goal with
  | |- context [Z.compare ?a ?b] => destruct (Z.compare_spec a b)
  | |- context [Pos.compare_cont Eq ?a ?b] =>
      change (Pos.compare_cont Eq a b) with (Pos.compare a b);
      destruct (Pos.compare_spec a b)
  end.

Ltac order_cases :=
  simpl; split_compare; simpl;
  split; intro; try discriminate; try reflexivity; subst;
  try lia; try congruence.

Lemma lt_place (x y : float) :
  is_nan x = false -> is_nan y = false ->
  (lt x y = true <-> lex_lt (place x) (place y)).
Proof.
  unfold lt, SFltb.
  destruct x as [sx | sx | | sx mx ex], y as [sy | sy | | sy my ey];
    try discriminate; intros _ _;
    try destruct sx; try destruct sy; order_cases.
Qed.

Lemma eq_place (x y : float) :
  is_nan x = false -> is_nan y = false ->
  (eq x y = true <-> place x = place y).
Proof.
  unfold eq, SFeqb.
  destruct x as [sx | sx | | sx mx ex], y as [sy | sy | | sy my ey];
    try discriminate; intros _ _;
    try destruct sx; try destruct sy; simpl; split_compare; simpl;
    split; intro H'; try discriminate; subst; try reflexivity;
    try (inversion H'; subst; clear H'); lia.
Qed.

Lemma lt_nan_l (y : float) : lt S754_nan y = false.
Proof. reflexivity. Qed.

Lemma lt_nan_r (x : float) : lt x S754_nan = false.
Proof. destruct x; reflexivity. Qed.

Lemma lt_not_nan (x y : float) :
  lt x y = true -> is_nan x = false /\ is_nan y = false.
Proof.
  destruct x, y; try discriminate; auto.
Qed.

Lemma lt_trans (x y z : float) :
  lt x y = true -> lt y z = true -> lt x z = true.
Proof.
  intros Hxy Hyz.
  destruct (lt_not_nan _ _ Hxy) as [Nx Ny].
  destruct (lt_not_nan _ _ Hyz) as [_ Nz].
  apply lt_place in Hxy; auto. apply lt_place in Hyz; auto.
  apply lt_place; auto.
  destruct (place x) as [[? ?] ?], (place y) as [[? ?] ?],
    (place z) as [[? ?] ?]; simpl in *; lia.
Qed.

Lemma lt_irrefl (x : float) : lt x x = false.
Proof.
  destruct (lt x x) eqn:E; auto.
  destruct (lt_not_nan _ _ E) as [Nx _].
  apply lt_place in E; auto.
  destruct (place x) as [[? ?] ?]; simpl in *; lia.
Qed.

(** *** The order of floats is the order of their values *)

Lemma digits2_pos_bounds (m : positive) :
  2 ^ (Z.pos (digits2_pos m) - 1) <= Z.pos m < 2 ^ Z.pos (digits2_pos m).
Proof.
  induction m as [m IH | m IH | ]; simpl digits2_pos.
  - rewrite Pos2Z.inj_succ.
    replace (Z.succ (Z.pos (digits2_pos m)) - 1)
      with (Z.succ (Z.pos (digits2_pos m) - 1)) by lia.
    rewrite !Z.pow_succ_r by lia. lia.
  - rewrite Pos2Z.inj_succ.
    replace (Z.succ (Z.pos (digits2_pos m)) - 1)
      with (Z.succ (Z.pos (digits2_pos m) - 1)) by lia.
    rewrite !Z.pow_succ_r by lia. lia.
  - simpl. lia.
Qed.

(** What [bounded] says about a mantissa and its exponent. *)
Lemma bounded_inv (m : positive) (e : Z) :
  bounded prec emax m e = true ->
  -1074 <= e <= 971 /\ Z.pos m < 2 ^ 53 /\ (-1074 < e -> 2 ^ 52 <= Z.pos m).
Proof.
  unfold bounded, canonical_mantissa, fexp, SpecFloat.emin, prec, emax.
  intro H. apply andb_true_iff in H. destruct H as [Hc He].
  apply Z.eqb_eq in Hc. apply Z.leb_le in He.
  pose proof (digits2_pos_bounds m) as [Hlo Hhi].
  set (d := Z.pos (digits2_pos m)) in *.
  assert (Hd : d <= 53) by lia.
  split; [lia | split].
  - eapply Z.lt_le_trans; [exact Hhi |].
    apply Z.pow_le_mono_r; lia.
  - intro Hgt. assert (d = 53) by lia.
    replace 52 with (d - 1) by lia. exact Hlo.
Qed.

Lemma mag_pos (m : positive) (e : Z) : -1074 <= e -> 0 < mag m e.
Proof.
  intro. unfold mag. apply Z.mul_pos_pos; [lia |].
  apply Z.pow_pos_nonneg; lia.
Qed.

Lemma mag_lt_exp (m1 m2 : positive) (e1 e2 : Z) :
  bounded prec emax m1 e1 = true -> bounded prec emax m2 e2 = true ->
  e1 < e2 -> mag m1 e1 < mag m2 e2.
Proof.
  intros B1 B2 Hlt.
  apply bounded_inv in B1. apply bounded_inv in B2.
  destruct B1 as [R1 [U1 _]], B2 as [R2 [_ L2]].
  specialize (L2 ltac:(lia)).
  unfold mag.
  assert (P1 : 0 < 2 ^ (e1 + 1074)) by (apply Z.pow_pos_nonneg; lia).
  assert (Hstep : 2 * 2 ^ (e1 + 1074) <= 2 ^ (e2 + 1074)).
  { rewrite <- Z.pow_succ_r by lia. apply Z.pow_le_mono_r; lia. }
  change (2 ^ 53) with (2 ^ 52 * 2) in U1.
  apply Z.lt_le_trans with (2 ^ 52 * (2 * 2 ^ (e1 + 1074))).
  - rewrite Z.mul_assoc. apply Z.mul_lt_mono_pos_r; assumption.
  - apply Z.le_trans with (2 ^ 52 * 2 ^ (e2 + 1074)).
    + apply Z.mul_le_mono_nonneg_l; [lia | assumption].
    + apply Z.mul_le_mono_nonneg_r; [lia | assumption].
Qed.

Lemma mag_lt_mant (m1 m2 : positive) (e : Z) :
  -1074 <= e -> (m1 < m2)%positive -> mag m1 e < mag m2 e.
Proof.
  intros He Hlt. unfold mag.
  apply Z.mul_lt_mono_pos_r; [apply Z.pow_pos_nonneg; lia | lia].
Qed.

(** For canonical numbers, comparing exponent then mantissa is comparing
    magnitudes. *)
Lemma mag_lt_iff (m1 m2 : positive) (e1 e2 : Z) :
  bounded prec emax m1 e1 = true -> bounded prec emax m2 e2 = true ->
  (e1 < e2 \/ (e1 = e2 /\ Z.pos m1 < Z.pos m2)) <-> mag m1 e1 < mag m2 e2.
Proof.
  intros B1 B2.
  pose proof (bounded_inv _ _ B1) as [R1 _].
  pose proof (bounded_inv _ _ B2) as [R2 _].
  split.
  - intros [H | [-> H]].
    + apply mag_lt_exp; assumption.
    + apply mag_lt_mant; lia.
  - intro H.
    destruct (Z.lt_trichotomy e1 e2) as [L | [E | G]]; [left; exact L | |].
    + subst e2. right. split; [reflexivity |].
      destruct (Z.lt_ge_cases (Z.pos m1) (Z.pos m2)) as [L | G]; [exact L |].
      exfalso.
      assert (mag m2 e1 <= mag m1 e1); [| lia].
      unfold mag. apply Z.mul_le_mono_nonneg_r; [| lia].
      apply Z.pow_nonneg; lia.
    + exfalso. pose proof (mag_lt_exp _ _ _ _ B2 B1 G). lia.
Qed.

(** On finite Python floats [<] is the order of the values. *)
Lemma lt_units (x y : float) :
  is_float x = true -> is_float y = true ->
  is_finite x = true -> is_finite y = true ->
  (lt x y = true <-> units x < units y).
Proof.
  intros Vx Vy Fx Fy.
  rewrite lt_place by (destruct x; try discriminate; reflexivity
                       || (destruct y; try discriminate; reflexivity)).
  destruct x as [sx | sx | | sx mx ex], y as [sy | sy | | sy my ey];
    try discriminate; unfold is_float, valid_binary in Vx, Vy;
    try (pose proof (mag_pos mx ex
           (proj1 (proj1 (bounded_inv _ _ Vx)))));
    try (pose proof (mag_pos my ey
           (proj1 (proj1 (bounded_inv _ _ Vy)))));
    try destruct sx; try destruct sy;
    cbv beta iota delta [place units cond_Zopp lex_lt];
    try fold (mag mx ex); try fold (mag my ey);
    try lia.
  - pose proof (mag_lt_iff _ _ _ _ Vy Vx). lia.
  - pose proof (mag_lt_iff _ _ _ _ Vx Vy). lia.
Qed.

(** *** [<=] *)

Lemma le_place (x y : float) :
  is_nan x = false -> is_nan y = false ->
  (le x y = true <-> ~ lex_lt (place y) (place x)).
Proof.
  unfold le, SFleb.
  destruct x as [sx | sx | | sx mx ex], y as [sy | sy | | sy my ey];
    try discriminate; intros _ _;
    try destruct sx; try destruct sy; simpl; split_compare; simpl;
    split; intro H'; try discriminate; try reflexivity; subst;
    try lia; try (exfalso; apply H'; lia).
Qed.

Lemma not_lt_le (x y : float) :
  is_nan x = false -> is_nan y = false ->
  lt x y = false -> le y x = true.
Proof.
  intros Nx Ny H. apply le_place; auto.
  intro C. apply lt_place in C; auto. congruence.
Qed.

Lemma lt_le (x y : float) : lt x y = true -> le x y = true.
Proof.
  unfold lt, le, SFltb, SFleb. destruct (SFcompare x y) as [[ | | ] | ];
    intro; try discriminate; reflexivity.
Qed.

Lemma le_trans (x y z : float) :
  is_nan x = false -> is_nan y = false -> is_nan z = false ->
  le x y = true -> le y z = true -> le x z = true.
Proof.
  intros Nx Ny Nz Hxy Hyz.
  apply le_place in Hxy; auto. apply le_place in Hyz; auto.
  apply le_place; auto.
  destruct (place x) as [[? ?] ?], (place y) as [[? ?] ?],
    (place z) as [[? ?] ?]; simpl in *; lia.
Qed.

(** A float strictly below another is not equal to what the other is
    equal to. *)
Lemma lt_eq_false (x y s : float) :
  lt x y = true -> eq x s = true -> eq y s = false.
Proof.
  intros Hlt Hx.
  destruct (lt_not_nan _ _ Hlt) as [Nx Ny].
  destruct (eq y s) eqn:Hy; [exfalso | reflexivity].
  assert (Ns : is_nan s = false).
  { destruct s; try reflexivity. destruct y; discriminate. }
  apply lt_place in Hlt; auto.
  apply eq_place in Hx; auto. apply eq_place in Hy; auto.
  rewrite Hx, <- Hy in Hlt.
  destruct (place y) as [[? ?] ?]; simpl in *; lia.
Qed.

End PyFloatFacts.

(** ** The built-in sort *)

Module PyListFacts.
Import PyList.

Section SortedFacts.
Context {A : Type}.
Variable key : A -> PyFloat.float.

Lemma insert_desc_perm (x : A) (l : list A) :
  Permutation (x :: l) (insert_desc key x l).
Proof.
  induction l as [ | y r IH]; simpl.
  - apply Permutation_refl.
  - destruct (PyFloat.lt (key x) (key y)).
    + eapply Permutation_trans; [apply perm_swap |].
      apply perm_skip. exact IH.
    + apply Permutation_refl.
Qed.

Lemma sorted_rev_perm (l : list A) : Permutation l (sorted_rev key l).
Proof.
  induction l as [ | x r IH]; simpl.
  - apply perm_nil.
  - eapply Permutation_trans; [| apply insert_desc_perm].
    apply perm_skip. exact IH.
Qed.

Lemma sorted_rev_length (l : list A) :
  List.length (sorted_rev key l) = List.length l.
Proof.
  symmetry. apply Permutation_length. apply sorted_rev_perm.
Qed.

Lemma insert_desc_sorted (x : A) (l : list A) :
  PyFloat.is_nan (key x) = false -> keys_ordered key l ->
  StronglySorted (ge_key key) l ->
  StronglySorted (ge_key key) (insert_desc key x l).
Proof.
  intros Nx Nl Hs. induction Hs as [ | y r Hr IH Hy]; simpl.
  - constructor; constructor.
  - inversion Nl as [ | ? ? Ny Nr]; subst.
    destruct (PyFloat.lt (key x) (key y)) eqn:E.
    + constructor; [apply IH; assumption |].
      eapply Permutation_Forall; [apply insert_desc_perm |].
      constructor; [| assumption].
      apply PyFloatFacts.lt_le. exact E.
    + assert (Hxy : ge_key key x y)
        by (apply PyFloatFacts.not_lt_le; assumption).
      constructor; [constructor; assumption |].
      constructor; [assumption |].
      rewrite Forall_forall in *. intros z Hz.
      unfold ge_key in *.
      apply PyFloatFacts.le_trans with (y := key y); auto.
Qed.

Lemma sorted_rev_sorted (l : list A) :
  keys_ordered key l -> StronglySorted (ge_key key) (sorted_rev key l).
Proof.
  intro Nl. induction Nl as [ | x r Nx Nr IH]; simpl.
  - constructor.
  - apply insert_desc_sorted; [assumption | | assumption].
    eapply Permutation_Forall; [apply sorted_rev_perm | assumption].
Qed.

Lemma insert_desc_stable (s : PyFloat.float) (x : A) (l : list A) :
  with_key key s (insert_desc key x l) = with_key key s (x :: l).
Proof.
  unfold with_key. induction l as [ | y r IH]; [reflexivity |].
  simpl insert_desc.
  destruct (PyFloat.lt (key x) (key y)) eqn:E; [| reflexivity].
  simpl filter in *. rewrite IH.
  destruct (PyFloat.eq (key x) s) eqn:Ex; [| reflexivity].
  rewrite (PyFloatFacts.lt_eq_false _ _ _ E Ex). reflexivity.
Qed.

Lemma sorted_rev_stable (s : PyFloat.float) (l : list A) :
  with_key key s (sorted_rev key l) = with_key key s l.
Proof.
  induction l as [ | x r IH]; [reflexivity |].
  simpl sorted_rev. rewrite insert_desc_stable.
  unfold with_key in *. simpl. rewrite IH. reflexivity.
Qed.

End SortedFacts.
End PyListFacts.

(** ** The float literals *)

Lemma literals_checked :
  PyFloat.is_literal PyFloat.f0_5 1 2 = true
  /\ PyFloat.is_literal PyFloat.f0_3 3 10 = true
  /\ PyFloat.is_literal PyFloat.f0_4999 4999 10000 = true
  /\ PyFloat.is_literal PyFloat.f0_25 25 100 = true
  /\ PyFloat.is_literal PyFloat.f0_82 82 100 = true
  /\ PyFloat.is_literal PyFloat.f0_65 65 100 = true
  /\ PyFloat.is_literal PyFloat.f1_0 1 1 = true
  /\ PyFloat.is_literal PyFloat.f100 100 1 = true.
Proof. vm_compute. repeat split. Qed.

Lemma value_f0_5 : Qeq (PyFloat.value PyFloat.f0_5) (1 # 2).
Proof. vm_compute. reflexivity. Qed.

(** On finite Python floats [<] is the order of the rational values. *)
Lemma lt_value (x y : PyFloat.float) :
  PyFloat.is_float x = true -> PyFloat.is_float y = true ->
  PyFloat.is_finite x = true -> PyFloat.is_finite y = true ->
  (PyFloat.lt x y = true <-> Qlt (PyFloat.value x) (PyFloat.value y)).
Proof.
  intros Vx Vy Fx Fy.
  rewrite (PyFloatFacts.lt_units x y Vx Vy Fx Fy).
  unfold PyFloat.value, Qlt. cbn [Qnum Qden].
  apply Z.mul_lt_mono_pos_r. reflexivity.
Qed.

(** ** Printing and indexing *)

Lemma bind_ok {A B} (out : list string) (a : A) (f : A -> M B) :
  bind (out, Ok a) f = ((out ++ stdout (f a))%list, result (f a)).
Proof.
  unfold bind, stdout, result. destruct (f a). reflexivity.
Qed.

Lemma bind_ret_l {A B} (a : A) (f : A -> M B) : bind (ret a) f = f a.
Proof.
  unfold bind, ret. destruct (f a). reflexivity.
Qed.

Lemma for_each_print_map {A} (f : A -> string) (l : list A) :
  for_each l (fun a => print (f a)) = (map f l, Ok tt).
Proof.
  induction l as [ | x r IH]; [reflexivity |].
  cbn [for_each]. rewrite IH. reflexivity.
Qed.

Lemma for_each_ext {A} (f g : A -> M unit) (l : list A) :
  (forall a : A, f a = g a) -> for_each l f = for_each l g.
Proof.
  intro H. induction l as [ | x r IH]; [reflexivity |].
  cbn [for_each]. rewrite H, IH. reflexivity.
Qed.

Lemma print_bind {B} (s : string) (k : unit -> M B) :
  bind (print s) k = (s :: stdout (k tt), result (k tt)).
Proof.
  unfold print. rewrite bind_ok. reflexivity.
Qed.

Lemma getitem_0_cons {A} (x : A) (l : list A) :
  PyList.getitem (x :: l) 0 = ret x.
Proof.
  unfold PyList.getitem.
  change (0 <? 0)%Z with false. cbv iota.
  replace (Z.of_nat (List.length (x :: l)) <=? 0)%Z with false.
  - reflexivity.
  - symmetry. apply Z.leb_gt. simpl List.length. lia.
Qed.

Lemma slice_to_firstn {A} (l : list A) (n : Z) :
  (0 <= n)%Z -> PyList.slice_to l n = firstn (Z.to_nat n) l.
Proof.
  intro Hn. unfold PyList.slice_to.
  destruct (Z.ltb_spec n 0) as [Hneg | _]; [lia |].
  destruct (Z.le_ge_cases n (Z.of_nat (List.length l))) as [Hle | Hge].
  - rewrite Z.min_l by assumption. reflexivity.
  - rewrite Z.min_r by assumption. rewrite Nat2Z.id.
    rewrite firstn_all. symmetry. apply firstn_all2. lia.
Qed.

Lemma slice_to_length {A} (l : list A) (n : Z) :
  (0 <= n)%Z ->
  Z.of_nat (List.length (PyList.slice_to l n))
  = Z.min n (Z.of_nat (List.length l)).
Proof.
  intro Hn. rewrite slice_to_firstn by assumption.
  rewrite length_firstn. lia.
Qed.

Lemma enumerate_length {A} (l : list A) (start : Z) :
  List.length (PyList.enumerate l start) = List.length l.
Proof.
  revert start. induction l as [ | x r IH]; intro start; simpl;
    [reflexivity | rewrite IH; reflexivity].
Qed.

Lemma enumerate_nth {A} (l : list A) (start : Z) (k : nat) (x : A) :
  nth_error l k = Some x ->
  nth_error (PyList.enumerate l start) k = Some ((start + Z.of_nat k)%Z, x).
Proof.
  revert start k. induction l as [ | y r IH]; intros start k H.
  - destruct k; discriminate.
  - destruct k as [ | k]; simpl in *.
    + injection H as ->. rewrite Z.add_0_r. reflexivity.
    + rewrite (IH _ _ H). do 2 f_equal. lia.
Qed.

(** ** The alert rules *)

Lemma alert_texts_distinct :
  ALERT_RARE_SPECIES <> ALERT_LOW_CONFIDENCE
  /\ ALERT_RARE_SPECIES <> ALERT_UNKNOWN_SOUND
  /\ ALERT_LOW_CONFIDENCE <> ALERT_UNKNOWN_SOUND.
Proof.
  repeat split; apply String.eqb_neq; reflexivity.
Qed.

Lemma str_in_iff (x : string) (l : list string) :
  PyStr.str_in x l = true <-> In x l.
Proof.
  unfold PyStr.str_in. rewrite existsb_exists. split.
  - intros [y [Hy E]]. apply String.eqb_eq in E. subst. exact Hy.
  - intro H. exists x. split; [exact H | apply String.eqb_refl].
Qed.

Section AlertFacts.
Variable lower : string -> string.

Lemma check_alerts_parts (l : string) (s : PyFloat.float) :
  check_alerts lower l s
  = ((if PyStr.str_in (lower l) (map lower RARE_SPECIES)
      then [ALERT_RARE_SPECIES] else [])
     ++ (if PyFloat.lt s LOW_CONFIDENCE_THRESHOLD
         then [ALERT_LOW_CONFIDENCE] else [])
     ++ (if PyFloat.lt s UNKNOWN_SOUND_THRESHOLD
         then [ALERT_UNKNOWN_SOUND] else []))%list.
Proof.
  unfold check_alerts.
  destruct (PyStr.str_in _ _), (PyFloat.lt s LOW_CONFIDENCE_THRESHOLD),
    (PyFloat.lt s UNKNOWN_SOUND_THRESHOLD); reflexivity.
Qed.

Ltac alert_cases l s :=
  rewrite check_alerts_parts;
  destruct alert_texts_distinct as [Drl [Dru Dlu]];
  destruct (PyStr.str_in (lower l) (map lower RARE_SPECIES)),
    (PyFloat.lt s LOW_CONFIDENCE_THRESHOLD),
    (PyFloat.lt s UNKNOWN_SOUND_THRESHOLD);
  simpl; intuition (try congruence).

Lemma rare_fires_iff (l : string) (s : PyFloat.float) :
  In ALERT_RARE_SPECIES (check_alerts lower l s)
  <-> PyStr.str_in (lower l) (map lower RARE_SPECIES) = true.
Proof. alert_cases l s. Qed.

Lemma low_fires_iff (l : string) (s : PyFloat.float) :
  In ALERT_LOW_CONFIDENCE (check_alerts lower l s)
  <-> PyFloat.lt s LOW_CONFIDENCE_THRESHOLD = true.
Proof. alert_cases l s. Qed.

Lemma unknown_fires_iff (l : string) (s : PyFloat.float) :
  In ALERT_UNKNOWN_SOUND (check_alerts lower l s)
  <-> PyFloat.lt s UNKNOWN_SOUND_THRESHOLD = true.
Proof. alert_cases l s. Qed.

(** ** What [print_results] prints *)

Lemma print_results_nil (top_n : Z) :
  print_results lower [] top_n = (banner_lines, Raised IndexError).
Proof. reflexivity. Qed.

Lemma alert_block_printed (alerts : list string) :
  match alerts with
  | [] => ret tt
  | _ :: _ =>
      print (LF ++ PyStr.repeat_str "-" 30) ;;;
      print "ОПОВЕЩЕНИЯ:" ;;;
      for_each alerts (fun alert => print ("  " ++ alert))
  end = (alert_block alerts, Ok tt).
Proof.
  destruct alerts as [ | a r]; [reflexivity |].
  rewrite (for_each_print_map alert_line). reflexivity.
Qed.

Lemma ranked_lines_printed (l : list (Z * Prediction)) :
  for_each l
    (fun '(i, pred) =>
       print ("  " ++ PyStr.str_of_int i ++ ". " ++ label pred
                   ++ " (" ++ PyStr.format_pct1 (score pred) ++ ")"))
  = (map ranked_line l, Ok tt).
Proof.
  rewrite <- for_each_print_map. apply for_each_ext.
  intros [i pred]. reflexivity.
Qed.

Lemma print_results_cons (p : Prediction) (ps : list Prediction)
    (top_n : Z) :
  print_results lower (p :: ps) top_n
  = ((banner_lines ++ top_lines p
       ++ alert_block (check_alerts lower (label p) (score p))
       ++ ranked_header top_n
       ++ ranked_lines (p :: ps) top_n
       ++ [footer_line])%list,
     Ok tt).
Proof.
  unfold print_results.
  do 3 (rewrite print_bind; cbv beta).
  rewrite getitem_0_cons, bind_ret_l.
  do 2 (rewrite print_bind; cbv beta). cbv zeta.
  rewrite alert_block_printed, bind_ok. cbv beta.
  do 2 (rewrite print_bind; cbv beta).
  rewrite ranked_lines_printed, bind_ok. cbv beta.
  unfold print, stdout, result. cbn [fst snd]. reflexivity.
Qed.

End AlertFacts.

(** * The claims *)

(** ** The ranking step on an empty result *)

Lemma classify_audio_ok (audio_path : string)
    (classifier : string -> list Prediction) :
  classify_audio audio_path classifier
  = (["Классифицирую..."],
     Ok (PyList.sorted_rev score (classifier audio_path))).
Proof. reflexivity. Qed.

Lemma main_report_eq (lower : string -> string) (audio_path : string)
    (classifier : string -> list Prediction) :
  main_report lower audio_path classifier
  = bind (["Классифицирую..."], Ok tt)
      (fun _ => print_results lower
                  (PyList.sorted_rev score (classifier audio_path))
                  default_top_n).
Proof.
  unfold main_report. rewrite classify_audio_ok, !bind_ok. reflexivity.
Qed.

(** C1, as the code behaves.  When the classifier yields no prediction,
    [classify_audio] raises nothing: it prints its progress record and
    returns the empty list.  [main] hands that list to [print_results],
    which prints the three banner records and then fails with [IndexError]
    at [predictions[0]]; the run ends there, so nothing after the banner
    (top prediction, alerts, ranking) is printed. *)
Theorem C1_empty_result_passes_the_ranker
    (lower : string -> string) (audio_path : string)
    (classifier : string -> list Prediction) :
  classifier audio_path = [] ->
  classify_audio audio_path classifier = (["Классифицирую..."], Ok [])
  /\ main_report lower audio_path classifier
     = ("Классифицирую..." :: banner_lines, Raised IndexError).
Proof.
  intro Hempty. split.
  - rewrite classify_audio_ok, Hempty. reflexivity.
  - rewrite main_report_eq, Hempty. reflexivity.
Qed.

Lemma C1_empty_result_passes_the_ranker_witness :
  classify_audio "recording.wav" (fun _ => [])
  = (["Классифицирую..."], Ok [])
  /\ main_report PyStr.lower_ascii "recording.wav" (fun _ => [])
     = ("Классифицирую..." :: banner_lines, Raised IndexError).
Proof.
  apply (C1_empty_result_passes_the_ranker PyStr.lower_ascii
           "recording.wav" (fun _ => [])).
  reflexivity.
Defined.

(** C1, as stated, fails: on the empty result the ranking step raises no
    exception at all. *)
Lemma C1_ranker_does_not_raise_on_empty :
  ~ (exists e : exn,
       result (classify_audio "recording.wav" (fun _ => [])) = Raised e).
Proof.
  intros [e H]. discriminate H.
Qed.

(** ** The ranking *)

(** C2.  For every non-empty list of predictions whose scores are numbers
    (none is NaN), [classify_audio] returns a list of the same length, its
    scores never increase from one item to any later one, and for every
    score the predictions with that score stand in the order they had in
    the input. *)
Theorem C2_ranking_sorted_and_stable (audio_path : string)
    (classifier : string -> list Prediction) :
  classifier audio_path <> [] ->
  PyList.keys_ordered score (classifier audio_path) ->
  exists ranked : list Prediction,
    result (classify_audio audio_path classifier) = Ok ranked
    /\ ranked <> []
    /\ List.length ranked = List.length (classifier audio_path)
    /\ Permutation (classifier audio_path) ranked
    /\ StronglySorted
         (fun a b => PyFloat.le (score b) (score a) = true) ranked
    /\ (forall s : PyFloat.float,
          filter (fun p => PyFloat.eq (score p) s) ranked
          = filter (fun p => PyFloat.eq (score p) s)
              (classifier audio_path)).
Proof.
  intros Hne Hnum.
  exists (PyList.sorted_rev score (classifier audio_path)).
  split; [reflexivity |].
  pose proof (PyListFacts.sorted_rev_length score (classifier audio_path))
    as Hlen.
  split; [| split; [exact Hlen | split; [| split]]].
  - intro E. rewrite E in Hlen.
    destruct (classifier audio_path); [congruence | discriminate].
  - apply PyListFacts.sorted_rev_perm.
  - apply (PyListFacts.sorted_rev_sorted score). exact Hnum.
  - intro s. apply (PyListFacts.sorted_rev_stable score).
Qed.

Example ranking_example :
  let a := mkPrediction "a" PyFloat.f0_25 in
  let b := mkPrediction "b" PyFloat.f0_82 in
  let c := mkPrediction "c" PyFloat.f0_25 in
  let d := mkPrediction "d" PyFloat.f0_82 in
  result (classify_audio "recording.wav" (fun _ => [a; b; c; d]))
  = Ok [b; d; a; c].
Proof. reflexivity. Qed.

Lemma C2_ranking_sorted_and_stable_witness :
  let preds := [ mkPrediction "a" PyFloat.f0_25;
                 mkPrediction "b" PyFloat.f0_82;
                 mkPrediction "c" PyFloat.f0_25;
                 mkPrediction "d" PyFloat.f0_82 ] in
  exists ranked : list Prediction,
    result (classify_audio "recording.wav" (fun _ => preds)) = Ok ranked
    /\ ranked <> []
    /\ List.length ranked = List.length preds
    /\ Permutation preds ranked
    /\ StronglySorted
         (fun a b => PyFloat.le (score b) (score a) = true) ranked
    /\ (forall s : PyFloat.float,
          filter (fun p => PyFloat.eq (score p) s) ranked
          = filter (fun p => PyFloat.eq (score p) s) preds).
Proof.
  intro preds.
  apply (C2_ranking_sorted_and_stable "recording.wav" (fun _ => preds)).
  - discriminate.
  - repeat constructor.
Defined.

(** ** The alert engine *)

Section AlertClaims.
Variable lower : string -> string.

(** On text made of ASCII characters, [str.lower] changes the letters A-Z
    to a-z and nothing else. *)
Hypothesis lower_on_ascii :
  forall s : string, PyStr.is_ascii s = true -> lower s = PyStr.lower_ascii s.

Lemma rare_fires_exact (l : string) (s : PyFloat.float) :
  In ALERT_RARE_SPECIES (check_alerts lower l s)
  <-> exists entry : string, In entry RARE_SPECIES /\ lower l = lower entry.
Proof.
  rewrite rare_fires_iff, str_in_iff, in_map_iff.
  split; intros [entry [H1 H2]]; exists entry; auto.
Qed.

Lemma lowered_registry : map lower RARE_SPECIES = RARE_SPECIES.
Proof.
  unfold RARE_SPECIES. cbn [map].
  rewrite !lower_on_ascii by reflexivity. reflexivity.
Qed.

(** C3, as the code behaves.  The rare-species alert is among the alerts
    exactly when the label lowered by [str.lower] is equal, as a whole
    string, to some entry of [RARE_SPECIES] lowered by [str.lower]; for a
    label in ASCII that is when the label with A-Z turned to a-z is one of
    the four entries.  Whatever the score, the label "Spotted Owl" raises
    the alert and the label "Spotted Owl Juvenile" does not. *)
Theorem C3_rare_species_exact_match :
  (forall (l : string) (s : PyFloat.float),
      In ALERT_RARE_SPECIES (check_alerts lower l s)
      <-> exists entry : string,
            In entry RARE_SPECIES /\ lower l = lower entry)
  /\ (forall (l : string) (s : PyFloat.float),
        PyStr.is_ascii l = true ->
        (In ALERT_RARE_SPECIES (check_alerts lower l s)
         <-> In (PyStr.lower_ascii l) RARE_SPECIES))
  /\ (forall s : PyFloat.float,
        In ALERT_RARE_SPECIES (check_alerts lower "Spotted Owl" s))
  /\ (forall s : PyFloat.float,
        ~ In ALERT_RARE_SPECIES
            (check_alerts lower "Spotted Owl Juvenile" s)).
Proof.
  split; [exact rare_fires_exact | split; [| split]].
  - intros l s Hl.
    rewrite rare_fires_iff, str_in_iff, lowered_registry.
    rewrite (lower_on_ascii l Hl). reflexivity.
  - intro s. apply rare_fires_exact. exists "spotted owl". split.
    + left. reflexivity.
    + rewrite !lower_on_ascii by reflexivity. reflexivity.
  - intros s H. apply rare_fires_exact in H.
    destruct H as [entry [Hin Heq]].
    rewrite (lower_on_ascii "Spotted Owl Juvenile") in Heq by reflexivity.
    simpl in Hin.
    destruct Hin as [<- | [<- | [<- | [<- | []]]]];
      rewrite lower_on_ascii in Heq by reflexivity; discriminate Heq.
Qed.

(** C4.  The low-confidence alert is among the alerts exactly when the
    score is strictly below the float 0.5; for a finite score that is when
    its value is below one half.  The score 0.5 does not raise it, the
    score 0.4999 does. *)
Theorem C4_low_confidence_strict :
  (forall (l : string) (s : PyFloat.float),
      In ALERT_LOW_CONFIDENCE (check_alerts lower l s)
      <-> PyFloat.lt s PyFloat.f0_5 = true)
  /\ (forall (l : string) (s : PyFloat.float),
        PyFloat.is_float s = true -> PyFloat.is_finite s = true ->
        (In ALERT_LOW_CONFIDENCE (check_alerts lower l s)
         <-> Qlt (PyFloat.value s) (1 # 2)))
  /\ (forall l : string,
        ~ In ALERT_LOW_CONFIDENCE (check_alerts lower l PyFloat.f0_5))
  /\ (forall l : string,
        In ALERT_LOW_CONFIDENCE (check_alerts lower l PyFloat.f0_4999)).
Proof.
  split; [| split; [| split]].
  - intros l s. apply low_fires_iff.
  - intros l s Vs Fs. rewrite low_fires_iff.
    unfold LOW_CONFIDENCE_THRESHOLD.
    rewrite (lt_value s PyFloat.f0_5 Vs eq_refl Fs eq_refl).
    rewrite value_f0_5. reflexivity.
  - intros l H. apply low_fires_iff in H. discriminate H.
  - intro l. apply low_fires_iff. reflexivity.
Qed.

(** C5.  The unknown-sound alert is among the alerts exactly when the
    score is strictly below the float 0.3; for a finite score that is when
    its value is below the value of that float.  The score 0.3 does not
    raise it. *)
Theorem C5_unknown_sound_strict :
  (forall (l : string) (s : PyFloat.float),
      In ALERT_UNKNOWN_SOUND (check_alerts lower l s)
      <-> PyFloat.lt s PyFloat.f0_3 = true)
  /\ (forall (l : string) (s : PyFloat.float),
        PyFloat.is_float s = true -> PyFloat.is_finite s = true ->
        (In ALERT_UNKNOWN_SOUND (check_alerts lower l s)
         <-> Qlt (PyFloat.value s) (PyFloat.value PyFloat.f0_3)))
  /\ (forall l : string,
        ~ In ALERT_UNKNOWN_SOUND (check_alerts lower l PyFloat.f0_3)).
Proof.
  split; [| split].
  - intros l s. apply unknown_fires_iff.
  - intros l s Vs Fs. rewrite unknown_fires_iff.
    unfold UNKNOWN_SOUND_THRESHOLD.
    apply (lt_value s PyFloat.f0_3 Vs eq_refl Fs eq_refl).
  - intros l H. apply unknown_fires_iff in H. discriminate H.
Qed.

(** C6.  Whenever the unknown-sound alert is among the alerts, so is the
    low-confidence alert; this holds for every score, in [0, 1] or not. *)
Theorem C6_unknown_implies_low_confidence (l : string) (s : PyFloat.float) :
  In ALERT_UNKNOWN_SOUND (check_alerts lower l s) ->
  In ALERT_LOW_CONFIDENCE (check_alerts lower l s)
  /\ In ALERT_UNKNOWN_SOUND (check_alerts lower l s).
Proof.
  intro H. split; [| exact H].
  apply unknown_fires_iff in H. apply low_fires_iff.
  apply PyFloatFacts.lt_trans with (y := UNKNOWN_SOUND_THRESHOLD);
    [exact H | reflexivity].
Qed.

End AlertClaims.

Lemma C4_low_confidence_strict_witness :
  In ALERT_LOW_CONFIDENCE
    (check_alerts PyStr.lower_ascii "Unknown Noise" PyFloat.f0_25)
  <-> Qlt (PyFloat.value PyFloat.f0_25) (1 # 2).
Proof.
  apply (proj1 (proj2 (C4_low_confidence_strict PyStr.lower_ascii)));
    reflexivity.
Defined.

Lemma C5_unknown_sound_strict_witness :
  In ALERT_UNKNOWN_SOUND
    (check_alerts PyStr.lower_ascii "Unknown Noise" PyFloat.f0_25)
  <-> Qlt (PyFloat.value PyFloat.f0_25) (PyFloat.value PyFloat.f0_3).
Proof.
  apply (proj1 (proj2 (C5_unknown_sound_strict PyStr.lower_ascii)));
    reflexivity.
Defined.

Lemma C6_unknown_implies_low_confidence_witness :
  In ALERT_LOW_CONFIDENCE
    (check_alerts PyStr.lower_ascii "Unknown Noise" PyFloat.f0_25)
  /\ In ALERT_UNKNOWN_SOUND
       (check_alerts PyStr.lower_ascii "Unknown Noise" PyFloat.f0_25).
Proof.
  apply (C6_unknown_implies_low_confidence PyStr.lower_ascii
           "Unknown Noise" PyFloat.f0_25).
  right. left. reflexivity.
Defined.

Lemma C3_rare_species_exact_match_witness :
  (forall (l : string) (s : PyFloat.float),
      In ALERT_RARE_SPECIES (check_alerts PyStr.lower_ascii l s)
      <-> exists entry : string,
            In entry RARE_SPECIES
            /\ PyStr.lower_ascii l = PyStr.lower_ascii entry)
  /\ (forall (l : string) (s : PyFloat.float),
        PyStr.is_ascii l = true ->
        (In ALERT_RARE_SPECIES (check_alerts PyStr.lower_ascii l s)
         <-> In (PyStr.lower_ascii l) RARE_SPECIES))
  /\ (forall s : PyFloat.float,
        In ALERT_RARE_SPECIES
          (check_alerts PyStr.lower_ascii "Spotted Owl" s))
  /\ (forall s : PyFloat.float,
        ~ In ALERT_RARE_SPECIES
            (check_alerts PyStr.lower_ascii "Spotted Owl Juvenile" s)).
Proof.
  apply (C3_rare_species_exact_match PyStr.lower_ascii).
  intros s _. reflexivity.
Defined.

(** C3, as stated, fails: lowering is not case folding.  The label
    "ſpotted owl", written with the long s (U+017F), case-folds to
    "spotted owl", an entry of the registry, but [str.lower] keeps the long
    s, and the alert is not raised. *)
Lemma C3_long_s_label_raises_no_alert :
  ~ (In ALERT_RARE_SPECIES
       (check_alerts PyStr.lower_ascii "ſpotted owl" PyFloat.f0_82)
     <-> exists entry : string,
           In entry RARE_SPECIES
           /\ PyCase.casefold "ſpotted owl" = PyCase.casefold entry).
Proof.
  intros [_ H].
  assert (Hin : In ALERT_RARE_SPECIES
                  (check_alerts PyStr.lower_ascii "ſpotted owl"
                     PyFloat.f0_82)).
  { apply H. exists "spotted owl". split; [left |]; reflexivity. }
  cbn in Hin. destruct Hin.
Qed.

Example long_s_lowered_and_folded :
  PyStr.lower_ascii "ſpotted owl" = "ſpotted owl"
  /\ PyCase.casefold "ſpotted owl" = "spotted owl"
  /\ PyCase.casefold "Spotted Owl" = "spotted owl".
Proof. repeat split. Qed.

(** C7.  The alerts come in the order rare species, low confidence,
    unknown sound: the result is those three texts in that order, each one
    dropped or kept.  No text occurs twice, there are at most three, and
    each is kept exactly when its own rule holds, whatever the other two
    rules say.  For the label "Unknown Noise" with the score 0.25 the result
    is the low-confidence alert followed by the unknown-sound alert. *)
Theorem C7_alerts_in_fixed_order (lower : string -> string)
    (lower_on_ascii :
       forall s : string,
         PyStr.is_ascii s = true -> lower s = PyStr.lower_ascii s) :
  (forall (l : string) (s : PyFloat.float),
      let alerts := check_alerts lower l s in
      (exists keep_rare keep_low keep_unknown : bool,
          alerts
          = (if keep_rare then [ALERT_RARE_SPECIES] else [])
              ++ (if keep_low then [ALERT_LOW_CONFIDENCE] else [])
              ++ (if keep_unknown then [ALERT_UNKNOWN_SOUND] else []))%list
      /\ NoDup alerts
      /\ (List.length alerts <= 3)%nat
      /\ (In ALERT_RARE_SPECIES alerts
          <-> exists entry : string,
                In entry RARE_SPECIES /\ lower l = lower entry)
      /\ (In ALERT_LOW_CONFIDENCE alerts
          <-> PyFloat.lt s LOW_CONFIDENCE_THRESHOLD = true)
      /\ (In ALERT_UNKNOWN_SOUND alerts
          <-> PyFloat.lt s UNKNOWN_SOUND_THRESHOLD = true))
  /\ check_alerts lower "Unknown Noise" PyFloat.f0_25
     = [ALERT_LOW_CONFIDENCE; ALERT_UNKNOWN_SOUND].
Proof.
  split.
  - intros l s alerts. subst alerts.
    split; [| split; [| split; [| split; [| split]]]].
    + rewrite check_alerts_parts. eauto.
    + rewrite check_alerts_parts.
      destruct alert_texts_distinct as [Drl [Dru Dlu]].
      destruct (PyStr.str_in _ _), (PyFloat.lt s LOW_CONFIDENCE_THRESHOLD),
        (PyFloat.lt s UNKNOWN_SOUND_THRESHOLD); simpl;
        repeat (constructor; simpl; try intuition congruence).
    + rewrite check_alerts_parts.
      destruct (PyStr.str_in _ _), (PyFloat.lt s LOW_CONFIDENCE_THRESHOLD),
        (PyFloat.lt s UNKNOWN_SOUND_THRESHOLD); simpl; lia.
    + apply rare_fires_exact.
    + apply low_fires_iff.
    + apply unknown_fires_iff.
  - unfold check_alerts.
    rewrite (lower_on_ascii "Unknown Noise") by reflexivity.
    replace (map lower RARE_SPECIES)
      with (map PyStr.lower_ascii RARE_SPECIES).
    + reflexivity.
    + apply map_ext_in. intros e He. symmetry. apply lower_on_ascii.
      simpl in He. destruct He as [<- | [<- | [<- | [<- | []]]]]; reflexivity.
Qed.

Lemma C7_alerts_in_fixed_order_witness :
  check_alerts PyStr.lower_ascii "Unknown Noise" PyFloat.f0_25
  = [ALERT_LOW_CONFIDENCE; ALERT_UNKNOWN_SOUND].
Proof.
  apply (proj2 (C7_alerts_in_fixed_order PyStr.lower_ascii
                  (fun s _ => eq_refl))).
Defined.

(** ** The rendering of scores *)

Lemma div_half_even_nearest (n d : Z) :
  (0 <= n)%Z -> (0 < d)%Z ->
  (0 <= PyStr.div_half_even n d)%Z
  /\ (2 * Z.abs (n - PyStr.div_half_even n d * d) <= d)%Z.
Proof.
  intros Hn Hd. unfold PyStr.div_half_even.
  pose proof (Z.div_mod n d ltac:(lia)) as Hdm.
  pose proof (Z.mod_pos_bound n d Hd) as Hr.
  pose proof (Z.div_pos n d Hn Hd) as Hq.
  set (q := (n / d)%Z) in *. set (r := (n mod d)%Z) in *.
  assert (E1 : (n - q * d = r)%Z) by lia.
  assert (E2 : (n - (q + 1) * d = r - d)%Z) by lia.
  destruct (Z.compare_spec (2 * r) d) as [He | Hl | Hg];
    [destruct (Z.even q) | |];
    first [rewrite E1 | rewrite E2]; lia.
Qed.

Lemma tenths_nearest (m : positive) (e : Z) :
  (0 <= PyStr.tenths m e)%Z
  /\ ((0 <= e)%Z -> PyStr.tenths m e = (10 * (Z.pos m * 2 ^ e))%Z)
  /\ ((e < 0)%Z ->
      (2 * Z.abs (10 * Z.pos m - PyStr.tenths m e * 2 ^ (- e))
       <= 2 ^ (- e))%Z).
Proof.
  unfold PyStr.tenths. destruct (Z.leb_spec 0 e) as [Hpos | Hneg].
  - assert (0 < 2 ^ e)%Z by (apply Z.pow_pos_nonneg; lia).
    split; [nia | split; [intros _; ring | lia]].
  - assert (Hd : (0 < 2 ^ (- e))%Z) by (apply Z.pow_pos_nonneg; lia).
    destruct (div_half_even_nearest (Z.pos m * 10) (2 ^ (- e))
                ltac:(lia) Hd) as [H0 Hn].
    split; [exact H0 | split; [lia |]].
    intros _. replace (10 * Z.pos m)%Z with (Z.pos m * 10)%Z by ring.
    exact Hn.
Qed.

Lemma digit_str_length (d : Z) :
  (0 <= d <= 9)%Z -> String.length (PyStr.str_of_int d) = 1%nat.
Proof.
  intro H.
  assert (C : (d = 0 \/ d = 1 \/ d = 2 \/ d = 3 \/ d = 4 \/ d = 5 \/ d = 6
               \/ d = 7 \/ d = 8 \/ d = 9)%Z) by lia.
  repeat (destruct C as [-> | C]; [reflexivity |]). subst. reflexivity.
Qed.

Lemma str_append_assoc (a b c : string) : (a ++ b) ++ c = a ++ b ++ c.
Proof.
  induction a as [ | ch a IH]; simpl; [reflexivity | rewrite IH; reflexivity].
Qed.

Lemma ranked_line_printed (l : list Prediction) (top_n : Z) (k : nat)
    (q : Prediction) :
  nth_error (PyList.slice_to l top_n) k = Some q ->
  nth_error (ranked_lines l top_n) k
  = Some ("  " ++ PyStr.str_of_int (1 + Z.of_nat k) ++ ". " ++ label q
               ++ " (" ++ PyStr.format_pct1 (score q) ++ ")").
Proof.
  intro H. unfold ranked_lines.
  rewrite nth_error_map, (enumerate_nth _ 1 k q H). reflexivity.
Qed.

(** C8.  [print_results] prints the score of the top prediction, and the
    score of every prediction of the ranking, through the one-decimal
    percent format.  That format renders 0.5 as "50.0%" and 0.82 as
    "82.0%".  Whenever the score times 100 is a finite number [m * 2^e],
    the rendering is a sign, the whole part, a point, exactly one digit and
    a percent sign, and the number so written is within 0.05 of
    [m * 2^e]. *)
Theorem C8_scores_rendered_as_percent :
  (forall (lower : string -> string) (p : Prediction)
          (ps : list Prediction) (top_n : Z),
      let out := stdout (print_results lower (p :: ps) top_n) in
      nth_error out 4
      = Some ("📊 Уверенность: " ++ PyStr.format_pct1 (score p))
      /\ (forall (k : nat) (q : Prediction),
             nth_error (PyList.slice_to (p :: ps) top_n) k = Some q ->
             In ("  " ++ PyStr.str_of_int (1 + Z.of_nat k) ++ ". "
                      ++ label q ++ " ("
                      ++ PyStr.format_pct1 (score q) ++ ")") out))
  /\ PyStr.format_pct1 PyFloat.f0_5 = "50.0%"
  /\ PyStr.format_pct1 PyFloat.f0_82 = "82.0%"
  /\ (forall (x : PyFloat.float) (s : bool) (m : positive) (e : Z),
         PyFloat.mul x PyFloat.f100 = S754_finite s m e ->
         let t := PyStr.tenths m e in
         PyStr.format_pct1 x
         = PyStr.sign_str s ++ PyStr.str_of_int (t / 10) ++ "."
             ++ PyStr.str_of_int (t mod 10) ++ "%"
         /\ (0 <= t / 10)%Z
         /\ String.length (PyStr.str_of_int (t mod 10)) = 1%nat
         /\ ((0 <= e)%Z -> t = (10 * (Z.pos m * 2 ^ e))%Z)
         /\ ((e < 0)%Z ->
             (2 * Z.abs (10 * Z.pos m - t * 2 ^ (- e)) <= 2 ^ (- e))%Z)).
Proof.
  split; [| split; [| split]].
  - intros lower p ps top_n out. subst out.
    rewrite print_results_cons. unfold stdout. cbn [fst]. split.
    + reflexivity.
    + intros k q H. apply ranked_line_printed in H.
      apply nth_error_In in H.
      rewrite !in_app_iff. do 4 right. left. exact H.
  - reflexivity.
  - reflexivity.
  - intros x s m e Hmul t.
    destruct (tenths_nearest m e) as [H0 [Hexact Hnear]]. fold t in H0.
    split; [| split; [| split; [| split]]].
    + unfold PyStr.format_pct1. rewrite Hmul. unfold PyStr.format_f1.
      fold t. rewrite !str_append_assoc. reflexivity.
    + apply Z.div_pos; lia.
    + apply digit_str_length.
      pose proof (Z.mod_pos_bound t 10 ltac:(lia)). lia.
    + exact Hexact.
    + exact Hnear.
Qed.

Lemma C8_scores_rendered_as_percent_witness :
  (let robin := mkPrediction "American Robin" PyFloat.f0_82 in
   let noise := mkPrediction "Unknown Noise" PyFloat.f0_25 in
   In ("  " ++ PyStr.str_of_int (1 + Z.of_nat 1) ++ ". " ++ label noise
            ++ " (" ++ PyStr.format_pct1 (score noise) ++ ")")
      (stdout (print_results PyStr.lower_ascii [robin; noise] 3)))
  /\ (let t := PyStr.tenths 5770237022568448%positive (-46) in
      PyStr.format_pct1 PyFloat.f0_82
      = PyStr.sign_str false ++ PyStr.str_of_int (t / 10) ++ "."
          ++ PyStr.str_of_int (t mod 10) ++ "%"
      /\ (0 <= t / 10)%Z
      /\ String.length (PyStr.str_of_int (t mod 10)) = 1%nat
      /\ ((0 <= -46)%Z -> t = (10 * (5770237022568448 * 2 ^ (-46)))%Z)
      /\ ((-46 < 0)%Z ->
          (2 * Z.abs (10 * 5770237022568448 - t * 2 ^ (- (-46)))
           <= 2 ^ (- (-46)))%Z)).
Proof.
  split.
  - intros robin noise.
    apply (proj2 (proj1 C8_scores_rendered_as_percent PyStr.lower_ascii
                    robin [noise] 3%Z) 1%nat noise).
    reflexivity.
  - apply (proj2 (proj2 (proj2 C8_scores_rendered_as_percent))
             PyFloat.f0_82 false 5770237022568448%positive (-46)%Z).
    reflexivity.
Defined.

Example report_american_robin :
  print_results PyStr.lower_ascii
    [mkPrediction "American Robin" PyFloat.f0_82] 3
  = ([ LF ++ "==================================================";
       "РЕЗУЛЬТАТЫ КЛАССИФИКАЦИИ";
       "==================================================";
       LF ++ "🐦 Вид: American Robin";
       "📊 Уверенность: 82.0%";
       LF ++ "------------------------------";
       "Топ-3 предсказания:";
       "  1. American Robin (82.0%)";
       "==================================================" ],
     Ok tt).
Proof. reflexivity. Qed.

(** ** The ranking lines and [top_n] *)

Lemma ranked_lines_length (l : list Prediction) (top_n : Z) :
  (0 <= top_n)%Z ->
  Z.of_nat (List.length (ranked_lines l top_n))
  = Z.min top_n (Z.of_nat (List.length l)).
Proof.
  intro H. unfold ranked_lines.
  rewrite length_map, enumerate_length. apply slice_to_length. exact H.
Qed.

Lemma slice_to_all {A} (l : list A) (n : Z) :
  (Z.of_nat (List.length l) <= n)%Z -> PyList.slice_to l n = l.
Proof.
  intro H. rewrite slice_to_firstn by lia. apply firstn_all2. lia.
Qed.

(** C9.  For a non-empty list of predictions and [top_n] at least 1,
    [print_results] returns normally, and what it prints ends with the
    ranking lines followed by the closing rule; there are as many ranking
    lines as the smaller of [top_n] and the number of predictions, the
    line at position [k] carrying the number [k + 1].  A [top_n] above the
    number of predictions gives one line per prediction: with two
    predictions and [top_n = 3] the ranking has exactly the two lines
    numbered 1 and 2. *)
Theorem C9_top_n_clamped_to_available :
  (forall (lower : string -> string) (predictions : list Prediction)
          (top_n : Z),
      predictions <> [] -> (1 <= top_n)%Z ->
      result (print_results lower predictions top_n) = Ok tt
      /\ (exists before : list string,
             stdout (print_results lower predictions top_n)
             = (before ++ ranked_lines predictions top_n
                  ++ [footer_line])%list)
      /\ Z.of_nat (List.length (ranked_lines predictions top_n))
         = Z.min top_n (Z.of_nat (List.length predictions))
      /\ (forall (k : nat) (q : Prediction),
             nth_error (PyList.slice_to predictions top_n) k = Some q ->
             nth_error (ranked_lines predictions top_n) k
             = Some ("  " ++ PyStr.str_of_int (1 + Z.of_nat k) ++ ". "
                          ++ label q ++ " ("
                          ++ PyStr.format_pct1 (score q) ++ ")"))
      /\ ((Z.of_nat (List.length predictions) < top_n)%Z ->
          ranked_lines predictions top_n
          = map ranked_line (PyList.enumerate predictions 1)))
  /\ (forall (lower : string -> string) (a b : Prediction),
         result (print_results lower [a; b] 3) = Ok tt
         /\ ranked_lines [a; b] 3
            = [ranked_line (1%Z, a); ranked_line (2%Z, b)]).
Proof.
  split.
  - intros lower predictions top_n Hne Htop.
    destruct predictions as [ | p ps]; [congruence |].
    rewrite print_results_cons. unfold result, stdout. cbn [fst snd].
    split; [reflexivity | split; [| split; [| split]]].
    + exists (banner_lines ++ top_lines p
              ++ alert_block (check_alerts lower (label p) (score p))
              ++ ranked_header top_n)%list.
      rewrite <- !app_assoc. reflexivity.
    + apply ranked_lines_length. lia.
    + intros k q H. apply ranked_line_printed. exact H.
    + intro H. unfold ranked_lines. rewrite slice_to_all by lia.
      reflexivity.
  - intros lower a b. rewrite print_results_cons. split; reflexivity.
Qed.

Lemma C9_top_n_clamped_to_available_witness :
  let predictions := [ mkPrediction "American Robin" PyFloat.f0_82;
                       mkPrediction "Unknown Noise" PyFloat.f0_25 ] in
  result (print_results PyStr.lower_ascii predictions 3) = Ok tt
  /\ (exists before : list string,
         stdout (print_results PyStr.lower_ascii predictions 3)
         = (before ++ ranked_lines predictions 3 ++ [footer_line])%list)
  /\ Z.of_nat (List.length (ranked_lines predictions 3))
     = Z.min 3 (Z.of_nat (List.length predictions))
  /\ (forall (k : nat) (q : Prediction),
         nth_error (PyList.slice_to predictions 3) k = Some q ->
         nth_error (ranked_lines predictions 3) k
         = Some ("  " ++ PyStr.str_of_int (1 + Z.of_nat k) ++ ". "
                      ++ label q ++ " ("
                      ++ PyStr.format_pct1 (score q) ++ ")"))
  /\ ((Z.of_nat (List.length predictions) < 3)%Z ->
      ranked_lines predictions 3
      = map ranked_line (PyList.enumerate predictions 1)).
Proof.
  intro predictions.
  apply (proj1 C9_top_n_clamped_to_available PyStr.lower_ascii
           predictions 3).
  - discriminate.
  - lia.
Defined.

Example ranking_of_two_with_top_3 :
  ranked_lines [ mkPrediction "American Robin" PyFloat.f0_82;
                 mkPrediction "Unknown Noise" PyFloat.f0_25 ] 3
  = [ "  1. American Robin (82.0%)"; "  2. Unknown Noise (25.0%)" ].
Proof. reflexivity. Qed.

(** ** The empty list in [print_results] *)

(** C10.  [print_results] takes [predictions[0]]
    unconditionally.  On a non-empty list that index is in bounds and the
    function returns normally, whatever [top_n] is.  On the empty list it
    fails with [IndexError] after printing the three banner records and
    before any record of the top prediction, the alerts or the ranking.
    Nothing earlier checks for the empty list: [classify_audio] never
    raises and returns as many predictions as the classifier gave, and
    [main] with a classifier that yields nothing ends in that
    [IndexError]. *)
Theorem C10_print_results_needs_a_prediction :
  (forall (p : Prediction) (ps : list Prediction),
      PyList.getitem (p :: ps) 0 = ret p)
  /\ (forall (lower : string -> string) (p : Prediction)
             (ps : list Prediction) (top_n : Z),
         result (print_results lower (p :: ps) top_n) = Ok tt)
  /\ (forall (lower : string -> string) (top_n : Z),
         print_results lower [] top_n = (banner_lines, Raised IndexError))
  /\ (forall (audio_path : string)
             (classifier : string -> list Prediction),
         exists ranked : list Prediction,
           result (classify_audio audio_path classifier) = Ok ranked
           /\ List.length ranked = List.length (classifier audio_path))
  /\ (forall (lower : string -> string) (audio_path : string),
         main_report lower audio_path (fun _ => [])
         = ("Классифицирую..." :: banner_lines, Raised IndexError)).
Proof.
  split; [| split; [| split; [| split]]].
  - intros p ps. apply getitem_0_cons.
  - intros lower p ps top_n. rewrite print_results_cons. reflexivity.
  - intros lower top_n. apply print_results_nil.
  - intros audio_path classifier.
    exists (PyList.sorted_rev score (classifier audio_path)).
    split; [reflexivity | apply PyListFacts.sorted_rev_length].
  - intros lower audio_path. rewrite main_report_eq. reflexivity.
Qed.

Example whooping_crane_one_alert :
  check_alerts PyStr.lower_ascii "Whooping Crane" PyFloat.f0_65
  = [ALERT_RARE_SPECIES].
Proof. reflexivity. Qed.

(** * Further properties *)

(** ** The path of the converted file *)

Module PyPathFacts.
Import PyPath.


Lemma startswith_iff (s p : string) :
  startswith s p = true <-> exists r : string, s = p ++ r.
Proof.
  revert s. induction p as [ | c p IH]; intro s; simpl.
  - split; [intros _; exists s; reflexivity | reflexivity].
  - destruct s as [ | d s].
    + split; [discriminate | intros [r H]; discriminate H].
    + rewrite andb_true_iff, Ascii.eqb_eq, IH. split.
      * intros [-> [r ->]]. exists r. reflexivity.
      * intros [r H]. injection H as -> ->. split; [reflexivity |].
        exists r. reflexivity.
Qed.

Lemma startswith_app (p r : string) : startswith (p ++ r) p = true.
Proof. apply startswith_iff. exists r. reflexivity. Qed.


Lemma endswith_app (a suffix : string) : endswith (a ++ suffix) suffix = true.
Proof.
  induction a as [ | c a IH]; cbn [append].
  - destruct suffix; cbn [endswith]; rewrite String.eqb_refl; reflexivity.
  - cbn [endswith]. rewrite IH. apply orb_true_r.
Qed.

Lemma endswith_iff (s suffix : string) :
  endswith s suffix = true <-> exists a : string, s = a ++ suffix.
Proof.
  split.
  - induction s as [ | c s IH]; cbn [endswith]; intro H.
    + rewrite orb_false_r in H. apply String.eqb_eq in H.
      exists "". simpl. exact H.
    + apply orb_true_iff in H. destruct H as [H | H].
      * apply String.eqb_eq in H. exists "". simpl. exact H.
      * destruct (IH H) as [a ->]. exists (String c a). reflexivity.
  - intros [a ->]. apply endswith_app.
Qed.


(** *** The scan of [replace] for ".mp3" *)

Lemma mp3_rest_step (k : nat) (c : ascii) (s : string) :
  (k <= 2)%nat ->
  startswith (String c s) (mp3_rest (S k)) = true ->
  startswith s (mp3_rest k) = true.
Proof.
  intros Hk H.
  assert (C : (k = 0 \/ k = 1 \/ k = 2)%nat) by lia.
  destruct C as [-> | [-> | ->]]; cbn [mp3_rest startswith] in *;
    try reflexivity; apply andb_true_iff in H; exact (proj2 H).
Qed.

(** Before a dot the scan is never inside an occurrence. *)
Lemma mp3_rest_dot (k : nat) (b : string) :
  (k <= 3)%nat ->
  startswith (String "." b) (mp3_rest k) = true -> k = 0%nat.
Proof.
  intros Hk H.
  assert (C : (k = 0 \/ k = 1 \/ k = 2 \/ k = 3)%nat) by lia.
  destruct C as [-> | [-> | [-> | ->]]];
    [reflexivity | discriminate H | discriminate H | discriminate H].
Qed.

(** An occurrence of ".mp3" that starts in a non-empty [a] does not reach
    into a dot that follows [a]. *)
Lemma startswith_mp3_before_dot (c : ascii) (a b : string) :
  startswith (String c a ++ String "." b) ".mp3"
  = startswith (String c a) ".mp3".
Proof.
  destruct a as [ | c1 [ | c2 [ | c3 a]]]; cbn;
    rewrite ?andb_false_r; reflexivity.
Qed.

Lemma replace_from_before_dot (a b : string) (k : nat) :
  (k <= 3)%nat ->
  startswith (a ++ String "." b) (mp3_rest k) = true ->
  replace_from ".mp3" ".wav" k (a ++ String "." b)
  = replace_from ".mp3" ".wav" k a
      ++ replace_from ".mp3" ".wav" 0 (String "." b).
Proof.
  revert k. induction a as [ | c a IH]; intros k Hk Hinv.
  - cbn [append] in *. rewrite (mp3_rest_dot k b Hk Hinv). reflexivity.
  - destruct k as [ | k].
    + cbn [append]. cbn [replace_from].
      change (String c (a ++ String "." b))
        with (String c a ++ String "." b).
      rewrite startswith_mp3_before_dot.
      destruct (startswith (String c a) ".mp3") eqn:E.
      * cbn [String.length Nat.sub]. rewrite IH.
        -- cbn [append]. reflexivity.
        -- lia.
        -- apply startswith_iff in E. destruct E as [r E].
           cbn [append] in E. injection E as _ ->.
           apply startswith_iff. exists (r ++ String "." b).
           cbn [mp3_rest append]. reflexivity.
      * cbn [append]. rewrite (IH 0%nat); [reflexivity | lia | reflexivity].
    + cbn [append replace_from]. apply IH; [lia |].
      apply (mp3_rest_step k c); [lia | exact Hinv].
Qed.

Lemma replace_from_mp3_head (b : string) :
  replace_from ".mp3" ".wav" 0 (".mp3" ++ b)
  = ".wav" ++ replace_from ".mp3" ".wav" 0 b.
Proof.
  reflexivity.
Qed.

Lemma replace_mp3_app (a b : string) :
  replace (a ++ ".mp3" ++ b) ".mp3" ".wav"
  = replace a ".mp3" ".wav" ++ ".wav" ++ replace b ".mp3" ".wav".
Proof.
  unfold replace.
  change (a ++ ".mp3" ++ b) with (a ++ String "." ("mp3" ++ b)).
  rewrite (replace_from_before_dot a ("mp3" ++ b) 0);
    [| lia | reflexivity].
  change (String "." ("mp3" ++ b)) with (".mp3" ++ b).
  rewrite replace_from_mp3_head. reflexivity.
Qed.

Lemma contains_false_inv (c : ascii) (s old : string) :
  contains (String c s) old = false ->
  startswith (String c s) old = false /\ contains s old = false.
Proof.
  cbn [contains]. intro H. apply orb_false_iff in H. exact H.
Qed.

(** Without an occurrence the scan copies the text. *)
Lemma replace_from_absent (old new s : string) :
  contains s old = false -> replace_from old new 0 s = s.
Proof.
  induction s as [ | c s IH]; intro H; [reflexivity |].
  apply contains_false_inv in H. destruct H as [H1 H2].
  cbn [replace_from]. rewrite H1, (IH H2). reflexivity.
Qed.


End PyPathFacts.

(** X1.  [main] obtains the path of the converted file by replacing every
    ".mp3" of the path, not only the extension: around any occurrence the
    text before it and the text after it are themselves rewritten, so a
    directory named with ".mp3" changes too. *)
Theorem X1_replace_takes_every_mp3 :
  (forall a b : string,
      PyPath.replace (a ++ ".mp3" ++ b) ".mp3" ".wav"
      = PyPath.replace a ".mp3" ".wav" ++ ".wav"
          ++ PyPath.replace b ".mp3" ".wav")
  /\ (forall dir stem : string,
         PyPath.contains dir ".mp3" = false ->
         PyPath.contains stem ".mp3" = false ->
         PyPath.replace (dir ++ ".mp3" ++ stem ++ ".mp3") ".mp3" ".wav"
         = dir ++ ".wav" ++ stem ++ ".wav").
Proof.
  split.
  - apply PyPathFacts.replace_mp3_app.
  - intros dir stem Hd Hs.
    rewrite PyPathFacts.replace_mp3_app.
    replace (stem ++ ".mp3") with (stem ++ ".mp3" ++ "") by reflexivity.
    rewrite PyPathFacts.replace_mp3_app.
    unfold PyPath.replace.
    rewrite (PyPathFacts.replace_from_absent _ _ dir Hd).
    rewrite (PyPathFacts.replace_from_absent _ _ stem Hs).
    reflexivity.
Qed.

Lemma X1_replace_takes_every_mp3_witness :
  PyPath.replace ("/music/live" ++ ".mp3" ++ "s/robin" ++ ".mp3")
    ".mp3" ".wav"
  = "/music/live" ++ ".wav" ++ "s/robin" ++ ".wav".
Proof.
  apply (proj2 X1_replace_takes_every_mp3 "/music/live" "s/robin");
    reflexivity.
Defined.

Lemma replace_mp3_ends_wav (audio_path : string) :
  PyPath.endswith audio_path ".mp3" = true ->
  PyPath.endswith (PyPath.replace audio_path ".mp3" ".wav") ".wav" = true.
Proof.
  intro Hend. apply PyPathFacts.endswith_iff in Hend.
  destruct Hend as [a ->].
  change (a ++ ".mp3") with (a ++ ".mp3" ++ "").
  rewrite PyPathFacts.replace_mp3_app. apply PyPathFacts.endswith_app.
Qed.



(** X3.  When ".mp3" occurs in the path only as its extension, the path of
    the converted file is the same path with the extension ".wav". *)
Theorem X3_wav_path_keeps_the_stem (stem : string) :
  PyPath.contains stem ".mp3" = false ->
  PyPath.endswith (stem ++ ".mp3") ".mp3" = true
  /\ PyPath.replace (stem ++ ".mp3") ".mp3" ".wav" = stem ++ ".wav".
Proof.
  intro H. split; [apply PyPathFacts.endswith_app |].
  change (stem ++ ".mp3") with (stem ++ ".mp3" ++ "").
  rewrite PyPathFacts.replace_mp3_app. unfold PyPath.replace.
  rewrite (PyPathFacts.replace_from_absent _ _ stem H). reflexivity.
Qed.

Lemma X3_wav_path_keeps_the_stem_witness :
  PyPath.endswith ("/music/robin" ++ ".mp3") ".mp3" = true
  /\ PyPath.replace ("/music/robin" ++ ".mp3") ".mp3" ".wav"
     = "/music/robin" ++ ".wav".
Proof.
  apply (X3_wav_path_keeps_the_stem "/music/robin"). reflexivity.
Defined.

(** ** Processes *)

Lemma pbind_done {A B} (tr : list event) (a : A) (f : A -> P B) :
  pbind (tr, Done a) f = ((tr ++ trace (f a))%list, snd (f a)).
Proof.
  unfold pbind, trace. destruct (f a). reflexivity.
Qed.

Lemma pbind_pair {A B} (m : P A) (f : A -> P B) :
  pbind m f
  = match snd m with
    | Done a => ((trace m ++ trace (f a))%list, snd (f a))
    | Stopped s => (trace m, Stopped s)
    end.
Proof.
  destruct m as [tr [a | s]]; [apply pbind_done | reflexivity].
Qed.

Lemma pbind_then_ret {A B C} (m : P A) (b : B) (f : B -> P C) :
  pbind (pbind m (fun _ => pret b)) f = pbind m (fun _ => f b).
Proof.
  destruct m as [tr [a | s]]; [| reflexivity].
  cbn [pbind pret]. rewrite app_nil_r. reflexivity.
Qed.

Lemma truthy_inv (arg : option string) :
  truthy arg = true ->
  exists (c : ascii) (r : string), arg = Some (String c r).
Proof.
  destruct arg as [[ | c r] | ]; try discriminate. intros _. eauto.
Qed.

(** The report of a run of [main] that reaches the classifier. *)
Lemma lift_report (lower : string -> string) (audio_path : string)
    (classifier : string -> list Prediction) :
  lift (bind (classify_audio audio_path classifier)
          (fun predictions =>
             print_results lower predictions default_top_n))
  = lift (main_report lower audio_path classifier).
Proof. reflexivity. Qed.

(** ** [main]: the arguments *)

(** X4.  Run without a URL and without a file (each absent or empty),
    [main] prints its two usage lines and exits with status 1 before doing
    anything else: the model is not loaded, nothing is fetched, read or
    written. *)
Theorem X4_main_without_arguments (w : World) (lower : string -> string)
    (args_url args_file : option string) :
  truthy args_url = false -> truthy args_file = false ->
  main w lower args_url args_file
  = ([ Printed "Ошибка: укажи --url или --file";
       Printed "Пример: python classify.py --file recording.mp3" ],
     Stopped (SystemExit 1))
  /\ exit_status (main w lower args_url args_file) = 1%Z.
Proof.
  intros Hu Hf. unfold main. rewrite Hu, Hf.
  split; reflexivity.
Qed.

Lemma X4_main_without_arguments_witness :
  let w := sample_world (inl "unreachable") None None true [] in
  main w PyStr.lower_ascii None (Some "")
  = ([ Printed "Ошибка: укажи --url или --file";
       Printed "Пример: python classify.py --file recording.mp3" ],
     Stopped (SystemExit 1))
  /\ exit_status (main w PyStr.lower_ascii None (Some "")) = 1%Z.
Proof.
  intro w.
  apply (X4_main_without_arguments w PyStr.lower_ascii None (Some ""));
    reflexivity.
Defined.

(** X5.  When a non-empty URL is given, the file argument plays no part:
    the run is the same whatever [--file] says.  When the URL is empty or
    absent and a file is given, the URL plays no part. *)
Theorem X5_main_url_before_file (w : World) (lower : string -> string) :
  (forall (args_url file1 file2 : option string),
      truthy args_url = true ->
      main w lower args_url file1 = main w lower args_url file2)
  /\ (forall (url1 url2 args_file : option string),
         truthy url1 = false -> truthy url2 = false ->
         main w lower url1 args_file = main w lower url2 args_file).
Proof.
  split.
  - intros args_url file1 file2 Hu.
    apply truthy_inv in Hu. destruct Hu as [c [r ->]]. reflexivity.
  - intros url1 url2 args_file H1 H2.
    destruct url1 as [[ | c1 r1] | ]; try discriminate H1;
      destruct url2 as [[ | c2 r2] | ]; try discriminate H2; reflexivity.
Qed.

Lemma X5_main_url_before_file_witness :
  let w := sample_world (inl "404 Client Error") None None true [] in
  main w PyStr.lower_ascii (Some "https://xeno-canto.org/1") None
  = main w PyStr.lower_ascii (Some "https://xeno-canto.org/1")
      (Some "recording.wav")
  /\ main w PyStr.lower_ascii None (Some "recording.wav")
     = main w PyStr.lower_ascii (Some "") (Some "recording.wav").
Proof.
  intro w. split.
  - apply (proj1 (X5_main_url_before_file w PyStr.lower_ascii)).
    reflexivity.
  - apply (proj2 (X5_main_url_before_file w PyStr.lower_ascii));
      reflexivity.
Defined.

(** X6.  With no usable URL and a file that does not exist, [main] loads
    the model first, then reports the missing file and exits with status
    1; nothing is converted or classified. *)
Theorem X6_main_missing_file (w : World) (lower : string -> string)
    (args_url : option string) (audio_path : string) :
  truthy args_url = false -> audio_path <> "" ->
  path_exists w audio_path = false ->
  main w lower args_url (Some audio_path)
  = ([ Printed "Загружаю модель..."; ModelLoad;
       Printed "Модель загружена!";
       Printed ("Ошибка: файл не найден: " ++ audio_path) ],
     Stopped (SystemExit 1)).
Proof.
  intros Hu Hne Hex. unfold main. rewrite Hu.
  destruct audio_path as [ | c r]; [congruence |].
  destruct args_url as [[ | cu ru] | ]; try discriminate Hu;
    cbn [truthy negb andb]; rewrite Hex; reflexivity.
Qed.

Lemma X6_main_missing_file_witness :
  let w := sample_world (inl "unreachable") None None false [] in
  main w PyStr.lower_ascii None (Some "recording.wav")
  = ([ Printed "Загружаю модель..."; ModelLoad;
       Printed "Модель загружена!";
       Printed ("Ошибка: файл не найден: " ++ "recording.wav") ],
     Stopped (SystemExit 1)).
Proof.
  intro w.
  apply (X6_main_missing_file w PyStr.lower_ascii None "recording.wav");
    [reflexivity | discriminate | reflexivity].
Defined.

(** ** [download_audio] and [convert_to_wav] *)

Section TransferFacts.
Variable w : World.

Lemma download_audio_get_fails (url output_path msg : string) :
  requests_get w url = inl msg ->
  download_audio w url output_path
  = ([ Printed ("Скачиваю: " ++ url); HttpGet url;
       Printed ("Ошибка при скачивании: " ++ msg) ],
     Done false).
Proof.
  intro H. unfold download_audio, http_get. rewrite H. reflexivity.
Qed.

Lemma download_audio_status_fails (url output_path msg : string)
    (resp : Response) :
  requests_get w url = inr resp -> status_error resp = Some msg ->
  download_audio w url output_path
  = ([ Printed ("Скачиваю: " ++ url); HttpGet url;
       Printed ("Ошибка при скачивании: " ++ msg) ],
     Done false).
Proof.
  intros H1 H2. unfold download_audio, http_get, raise_for_status.
  rewrite H1. cbn. rewrite H2. reflexivity.
Qed.

Lemma download_audio_write_fails (url output_path msg : string)
    (resp : Response) :
  requests_get w url = inr resp -> status_error resp = None ->
  write_binary w output_path (content resp) = Some msg ->
  download_audio w url output_path
  = ([ Printed ("Скачиваю: " ++ url); HttpGet url;
       FileWrite output_path (content resp);
       Printed ("Ошибка при скачивании: " ++ msg) ],
     Done false).
Proof.
  intros H1 H2 H3.
  unfold download_audio, http_get, raise_for_status, write_file.
  rewrite H1. cbn. rewrite H2. cbn. rewrite H3. reflexivity.
Qed.

Lemma download_audio_succeeds (url output_path : string) (resp : Response) :
  requests_get w url = inr resp -> status_error resp = None ->
  write_binary w output_path (content resp) = None ->
  download_audio w url output_path
  = ([ Printed ("Скачиваю: " ++ url); HttpGet url;
       FileWrite output_path (content resp);
       Printed ("Сохранено: " ++ output_path) ],
     Done true).
Proof.
  intros H1 H2 H3.
  unfold download_audio, http_get, raise_for_status, write_file.
  rewrite H1. cbn. rewrite H2. cbn. rewrite H3. reflexivity.
Qed.

(** The download has succeeded: the request was answered, with a good
    status, and the file could be written. *)
Lemma download_audio_cases (url output_path : string) :
  (exists resp : Response,
      requests_get w url = inr resp /\ status_error resp = None
      /\ write_binary w output_path (content resp) = None
      /\ download_audio w url output_path
         = ([ Printed ("Скачиваю: " ++ url); HttpGet url;
              FileWrite output_path (content resp);
              Printed ("Сохранено: " ++ output_path) ],
            Done true))
  \/ (exists (msg : string) (written : list event),
         download_audio w url output_path
         = ((Printed ("Скачиваю: " ++ url) :: HttpGet url :: written
               ++ [Printed ("Ошибка при скачивании: " ++ msg)])%list,
            Done false)
         /\ (written = []
             \/ exists resp : Response,
                  requests_get w url = inr resp
                  /\ status_error resp = None
                  /\ written = [FileWrite output_path (content resp)])
         /\ ~ (exists resp : Response,
                  requests_get w url = inr resp
                  /\ status_error resp = None
                  /\ write_binary w output_path (content resp) = None)).
Proof.
  destruct (requests_get w url) as [msg | resp] eqn:Hget.
  - right. exists msg, []. split; [| split].
    + apply download_audio_get_fails. exact Hget.
    + left. reflexivity.
    + intros [resp [H _]]. discriminate H.
  - destruct (status_error resp) as [msg | ] eqn:Hst.
    + right. exists msg, []. split; [| split].
      * apply (download_audio_status_fails _ _ _ resp); assumption.
      * left. reflexivity.
      * intros [resp' [H1 [H2 _]]]. injection H1 as <-. congruence.
    + destruct (write_binary w output_path (content resp))
        as [msg | ] eqn:Hwr.
      * right. exists msg, [FileWrite output_path (content resp)].
        split; [| split].
        -- apply (download_audio_write_fails _ _ _ resp); assumption.
        -- right. exists resp. auto.
        -- intros [resp' [H1 [_ H3]]]. injection H1 as <-. congruence.
      * left. exists resp. repeat split; try assumption.
        apply download_audio_succeeds; assumption.
Qed.

(** X7.  [download_audio] and the ways a download fails, a failing call
    raising an [Exception].  When the request raises, or the answer has an
    error status, the function prints the message of the error and returns
    [False] without opening the file.  When the file cannot be written, it
    prints that error and returns [False].  When all three steps succeed,
    it has made one request, written the body of the answer to
    [output_path], printed the path and returns [True].  So, whenever it
    returns, it returns [True] exactly when the three steps succeeded, and
    what it wrote is the body of a good answer, at [output_path] and
    nowhere else. *)
Theorem X7_download_audio_reports_each_failure (url output_path : string) :
  (forall msg : string,
      requests_get w url = inl msg ->
      download_audio w url output_path
      = ([ Printed ("Скачиваю: " ++ url); HttpGet url;
           Printed ("Ошибка при скачивании: " ++ msg) ],
         Done false))
  /\ (forall (resp : Response) (msg : string),
         requests_get w url = inr resp -> status_error resp = Some msg ->
         download_audio w url output_path
         = ([ Printed ("Скачиваю: " ++ url); HttpGet url;
              Printed ("Ошибка при скачивании: " ++ msg) ],
            Done false))
  /\ (forall (resp : Response) (msg : string),
         requests_get w url = inr resp -> status_error resp = None ->
         write_binary w output_path (content resp) = Some msg ->
         download_audio w url output_path
         = ([ Printed ("Скачиваю: " ++ url); HttpGet url;
              FileWrite output_path (content resp);
              Printed ("Ошибка при скачивании: " ++ msg) ],
            Done false))
  /\ (forall resp : Response,
         requests_get w url = inr resp -> status_error resp = None ->
         write_binary w output_path (content resp) = None ->
         download_audio w url output_path
         = ([ Printed ("Скачиваю: " ++ url); HttpGet url;
              FileWrite output_path (content resp);
              Printed ("Сохранено: " ++ output_path) ],
            Done true))
  /\ (forall (tr : list event) (ok : bool),
         download_audio w url output_path = (tr, Done ok) ->
         (ok = true
          <-> exists resp : Response,
                requests_get w url = inr resp /\ status_error resp = None
                /\ write_binary w output_path (content resp) = None)
         /\ (forall path data : string,
                In (FileWrite path data) tr ->
                path = output_path
                /\ exists resp : Response,
                     requests_get w url = inr resp
                     /\ status_error resp = None
                     /\ data = content resp)).
Proof.
  split; [| split; [| split; [| split]]].
  - intros msg H. apply download_audio_get_fails. exact H.
  - intros resp msg H1 H2.
    apply (download_audio_status_fails _ _ _ resp); assumption.
  - intros resp msg H1 H2 H3.
    apply (download_audio_write_fails _ _ _ resp); assumption.
  - intros resp H1 H2 H3. apply download_audio_succeeds; assumption.
  - intros tr ok Hrun.
    destruct (download_audio_cases url output_path)
      as [[resp [H1 [H2 [H3 E]]]] | [msg [written [E [Hw Hno]]]]];
      rewrite E in Hrun; injection Hrun as <- <-.
    + split; [split; [intros _; exists resp; auto | reflexivity] |].
      intros path data Hin. cbn in Hin.
      destruct Hin as [H | [H | [H | [H | []]]]]; try discriminate H.
      injection H as <- <-. split; [reflexivity | exists resp; auto].
    + split; [split; [discriminate | intro H; exfalso; exact (Hno H)] |].
      intros path data Hin.
      destruct Hw as [-> | [resp [H1 [H2 ->]]]]; cbn in Hin.
      * destruct Hin as [H | [H | [H | []]]]; discriminate H.
      * destruct Hin as [H | [H | [H | [H | []]]]]; try discriminate H.
        injection H as <- <-. split; [reflexivity | exists resp; auto].
Qed.

Lemma convert_to_wav_succeeds (input_path output_path : string)
    (a : Audio w) :
  librosa_load w input_path = inr a -> sf_write w output_path a = None ->
  convert_to_wav w input_path output_path
  = ([ Printed "Конвертирую в wav..."; AudioLoad input_path;
       AudioWrite output_path;
       Printed ("Конвертировано: " ++ output_path) ],
     Done output_path).
Proof.
  intros H1 H2. unfold convert_to_wav. rewrite H1. cbn. rewrite H2.
  reflexivity.
Qed.

Lemma convert_to_wav_load_fails (input_path output_path msg : string) :
  librosa_load w input_path = inl msg ->
  convert_to_wav w input_path output_path
  = ([Printed "Конвертирую в wav..."; AudioLoad input_path],
     Stopped (LibraryError msg)).
Proof.
  intro H. unfold convert_to_wav. rewrite H. reflexivity.
Qed.

Lemma convert_to_wav_write_fails (input_path output_path msg : string)
    (a : Audio w) :
  librosa_load w input_path = inr a ->
  sf_write w output_path a = Some msg ->
  convert_to_wav w input_path output_path
  = ([ Printed "Конвертирую в wav..."; AudioLoad input_path;
       AudioWrite output_path ],
     Stopped (LibraryError msg)).
Proof.
  intros H1 H2. unfold convert_to_wav. rewrite H1. cbn. rewrite H2.
  reflexivity.
Qed.

End TransferFacts.

(** ** [main]: the path that is classified *)

Lemma join_audio_mp3 (dir : string) :
  PyPath.join dir "audio.mp3" = PyPath.join dir "audio" ++ ".mp3".
Proof.
  unfold PyPath.join.
  change (PyPath.startswith "audio.mp3" "/") with false.
  change (PyPath.startswith "audio" "/") with false. cbv iota.
  destruct (String.eqb dir "" || PyPath.endswith dir "/");
    rewrite !str_append_assoc; reflexivity.
Qed.

Lemma join_audio_mp3_ends (dir : string) :
  PyPath.endswith (PyPath.join dir "audio.mp3") ".mp3" = true.
Proof.
  rewrite join_audio_mp3. apply PyPathFacts.endswith_app.
Qed.

Section MainFacts.
Variable w : World.
Variable lower : string -> string.

(** What [main] does once it has the path of a recording. *)
Lemma main_with_file (args_url : option string) (audio_path : string) :
  truthy args_url = false -> audio_path <> "" ->
  path_exists w audio_path = true ->
  main w lower args_url (Some audio_path)
  = pbind ([ Printed "Загружаю модель..."; ModelLoad;
             Printed "Модель загружена!" ], Done tt)
      (fun _ =>
         pbind (if PyPath.endswith audio_path ".mp3"
                then pbind (convert_to_wav w audio_path
                              (PyPath.replace audio_path ".mp3" ".wav"))
                       (fun _ =>
                          pret (PyPath.replace audio_path ".mp3" ".wav"))
                else pret audio_path)
           (fun path => lift (main_report lower path (pipeline w)))).
Proof.
  intros Hu Hne Hex. unfold main.
  destruct audio_path as [ | c r]; [congruence |].
  destruct args_url as [[ | cu ru] | ]; try discriminate Hu;
    cbn [truthy negb andb]; rewrite Hex;
    cbn [negb pbind pret pprint emit app];
    (destruct (PyPath.endswith (String c r) ".mp3");
     [destruct (convert_to_wav w (String c r)
                  (PyPath.replace (String c r) ".mp3" ".wav"))
        as [tr [x | s]] |]);
    reflexivity.
Qed.

Lemma main_with_url (url : string) (args_file : option string) :
  url <> "" ->
  let mp3 := PyPath.join (mkdtemp w) "audio.mp3" in
  let wav := PyPath.replace mp3 ".mp3" ".wav" in
  main w lower (Some url) args_file
  = pbind ([ Printed "Загружаю модель..."; ModelLoad;
             Printed "Модель загружена!"; MkDTemp ], Done tt)
      (fun _ =>
         pbind (download_audio w url mp3)
           (fun ok =>
              pbind (if negb ok then sys_exit 1 else pret tt)
                (fun _ =>
                   pbind (convert_to_wav w mp3 wav)
                     (fun _ => lift (main_report lower wav (pipeline w)))))).
Proof.
  intros Hne mp3 wav. subst mp3 wav. unfold main.
  destruct url as [ | c r]; [congruence |].
  cbn [truthy negb andb pbind pret pprint emit app].
  destruct (download_audio w (String c r)
              (PyPath.join (mkdtemp w) "audio.mp3")) as [tr [[ | ] | s]];
    cbn [negb pbind pret sys_exit pstop app];
    rewrite ?join_audio_mp3_ends; try reflexivity.
  destruct (convert_to_wav w (PyPath.join (mkdtemp w) "audio.mp3")
              (PyPath.replace (PyPath.join (mkdtemp w) "audio.mp3")
                 ".mp3" ".wav")) as [tr2 [x | s2]];
    cbn [pbind pret lift app]; rewrite ?app_nil_r; reflexivity.
Qed.

End MainFacts.

Lemma join_audio_wav (dir : string) :
  PyPath.join dir "audio.wav" = PyPath.join dir "audio" ++ ".wav".
Proof.
  unfold PyPath.join.
  change (PyPath.startswith "audio.wav" "/") with false.
  change (PyPath.startswith "audio" "/") with false. cbv iota.
  destruct (String.eqb dir "" || PyPath.endswith dir "/");
    rewrite !str_append_assoc; reflexivity.
Qed.

(** X8.  When the download of a URL fails, whether the request fails, the
    server answers with an error status or the file cannot be written,
    [main] prints the error and exits with status 1, after loading the
    model and making the temporary directory: nothing is converted or
    classified. *)
Theorem X8_main_download_failure (w : World) (lower : string -> string)
    (url : string) (args_file : option string) :
  url <> "" ->
  let mp3 := PyPath.join (mkdtemp w) "audio.mp3" in
  (forall msg : string,
      requests_get w url = inl msg ->
      main w lower (Some url) args_file
      = ([ Printed "Загружаю модель..."; ModelLoad;
           Printed "Модель загружена!"; MkDTemp;
           Printed ("Скачиваю: " ++ url); HttpGet url;
           Printed ("Ошибка при скачивании: " ++ msg) ],
         Stopped (SystemExit 1)))
  /\ (forall (resp : Response) (msg : string),
         requests_get w url = inr resp -> status_error resp = Some msg ->
         main w lower (Some url) args_file
         = ([ Printed "Загружаю модель..."; ModelLoad;
              Printed "Модель загружена!"; MkDTemp;
              Printed ("Скачиваю: " ++ url); HttpGet url;
              Printed ("Ошибка при скачивании: " ++ msg) ],
            Stopped (SystemExit 1)))
  /\ (forall (resp : Response) (msg : string),
         requests_get w url = inr resp -> status_error resp = None ->
         write_binary w mp3 (content resp) = Some msg ->
         main w lower (Some url) args_file
         = ([ Printed "Загружаю модель..."; ModelLoad;
              Printed "Модель загружена!"; MkDTemp;
              Printed ("Скачиваю: " ++ url); HttpGet url;
              FileWrite mp3 (content resp);
              Printed ("Ошибка при скачивании: " ++ msg) ],
            Stopped (SystemExit 1))).
Proof.
  intros Hne mp3. subst mp3. split; [| split].
  - intros msg H. rewrite (main_with_url w lower url args_file Hne).
    rewrite (download_audio_get_fails w url _ msg H). reflexivity.
  - intros resp msg H1 H2.
    rewrite (main_with_url w lower url args_file Hne).
    rewrite (download_audio_status_fails w url _ msg resp H1 H2).
    reflexivity.
  - intros resp msg H1 H2 H3.
    rewrite (main_with_url w lower url args_file Hne). cbv zeta.
    rewrite (download_audio_write_fails w url _ msg resp H1 H2 H3).
    reflexivity.
Qed.

Lemma X8_main_download_failure_witness :
  let w := sample_world (inl "404 Client Error") None None true [] in
  main w PyStr.lower_ascii (Some "https://xeno-canto.org/1") None
  = ([ Printed "Загружаю модель..."; ModelLoad;
       Printed "Модель загружена!"; MkDTemp;
       Printed ("Скачиваю: " ++ "https://xeno-canto.org/1");
       HttpGet "https://xeno-canto.org/1";
       Printed ("Ошибка при скачивании: " ++ "404 Client Error") ],
     Stopped (SystemExit 1)).
Proof.
  intro w.
  apply (proj1 (X8_main_download_failure w PyStr.lower_ascii
                  "https://xeno-canto.org/1" None ltac:(discriminate))
           "404 Client Error").
  reflexivity.
Defined.

(** X9.  A recording fetched from a URL is always converted before it is
    classified, whatever its real format: it is saved as "audio.mp3" in
    the temporary directory, which ends with ".mp3".  The classifier then
    receives a path that ends with ".wav"; when ".mp3" does not occur in
    the path of the temporary directory, that path is "audio.wav" in the
    same directory. *)
Theorem X9_main_url_is_always_converted (w : World)
    (lower : string -> string) (url : string) (args_file : option string)
    (resp : Response) :
  url <> "" ->
  let mp3 := PyPath.join (mkdtemp w) "audio.mp3" in
  let wav := PyPath.replace mp3 ".mp3" ".wav" in
  requests_get w url = inr resp -> status_error resp = None ->
  write_binary w mp3 (content resp) = None ->
  main w lower (Some url) args_file
  = pbind ([ Printed "Загружаю модель..."; ModelLoad;
             Printed "Модель загружена!"; MkDTemp;
             Printed ("Скачиваю: " ++ url); HttpGet url;
             FileWrite mp3 (content resp);
             Printed ("Сохранено: " ++ mp3) ], Done tt)
      (fun _ =>
         pbind (convert_to_wav w mp3 wav)
           (fun _ => lift (main_report lower wav (pipeline w))))
  /\ PyPath.endswith wav ".wav" = true
  /\ (PyPath.contains (PyPath.join (mkdtemp w) "audio") ".mp3" = false ->
      wav = PyPath.join (mkdtemp w) "audio.wav").
Proof.
  intros Hne mp3 wav H1 H2 H3. subst mp3 wav. split; [| split].
  - rewrite (main_with_url w lower url args_file Hne). cbv zeta.
    rewrite (download_audio_succeeds w url _ resp H1 H2 H3).
    destruct (convert_to_wav w _ _) as [tr [x | s]]; reflexivity.
  - apply replace_mp3_ends_wav. apply join_audio_mp3_ends.
  - intro Hc. rewrite join_audio_mp3, join_audio_wav.
    change (PyPath.join (mkdtemp w) "audio" ++ ".mp3")
      with (PyPath.join (mkdtemp w) "audio" ++ ".mp3" ++ "").
    rewrite PyPathFacts.replace_mp3_app. unfold PyPath.replace.
    rewrite (PyPathFacts.replace_from_absent _ _ _ Hc). reflexivity.
Qed.

Lemma X9_main_url_is_always_converted_witness :
  let w := sample_world (inr (mkResponse None "RIFF")) None None true [] in
  PyPath.replace (PyPath.join (mkdtemp w) "audio.mp3") ".mp3" ".wav"
  = PyPath.join (mkdtemp w) "audio.wav".
Proof.
  intro w.
  apply (proj2 (proj2 (X9_main_url_is_always_converted w PyStr.lower_ascii
                         "https://xeno-canto.org/1" None
                         (mkResponse None "RIFF")
                         ltac:(discriminate) eq_refl eq_refl eq_refl))).
  reflexivity.
Defined.

(** X10.  A local file that exists and whose path does not end with
    ".mp3" (in lower case) is classified as it is: after loading the model
    [main] goes straight to the classification of that path and its
    report; nothing is fetched, converted or written, and the run ends as
    the report ends. *)
Theorem X10_main_classifies_other_files_as_they_are (w : World)
    (lower : string -> string) (args_url : option string)
    (audio_path : string) :
  truthy args_url = false -> audio_path <> "" ->
  path_exists w audio_path = true ->
  PyPath.endswith audio_path ".mp3" = false ->
  main w lower args_url (Some audio_path)
  = ((Printed "Загружаю модель..." :: ModelLoad
        :: Printed "Модель загружена!"
        :: map Printed
             (stdout (main_report lower audio_path (pipeline w))))%list,
     match result (main_report lower audio_path (pipeline w)) with
     | Ok a => Done a
     | Raised e => Stopped (Uncaught e)
     end).
Proof.
  intros Hu Hne Hex Hend.
  rewrite (main_with_file w lower args_url audio_path Hu Hne Hex), Hend.
  reflexivity.
Qed.

Lemma X10_main_classifies_other_files_as_they_are_witness :
  let w := sample_world (inl "unreachable") None None true
             [mkPrediction "American Robin" PyFloat.f0_82] in
  main w PyStr.lower_ascii None (Some "robin.MP3")
  = ((Printed "Загружаю модель..." :: ModelLoad
        :: Printed "Модель загружена!"
        :: map Printed
             (stdout (main_report PyStr.lower_ascii "robin.MP3"
                        (pipeline w))))%list,
     match result (main_report PyStr.lower_ascii "robin.MP3"
                     (pipeline w)) with
     | Ok a => Done a
     | Raised e => Stopped (Uncaught e)
     end).
Proof.
  intro w.
  apply (X10_main_classifies_other_files_as_they_are w PyStr.lower_ascii
           None "robin.MP3");
    [reflexivity | discriminate | reflexivity | reflexivity].
Defined.

(** X11.  A local file that exists and whose path ends with ".mp3" is
    converted first, and the classifier receives the path of the converted
    file, not the path given.  An error of the decoder or of the writer is
    not caught: the run stops there with that error, and nothing is
    classified. *)
Theorem X11_main_converts_local_mp3 (w : World) (lower : string -> string)
    (args_url : option string) (audio_path : string) :
  truthy args_url = false -> path_exists w audio_path = true ->
  PyPath.endswith audio_path ".mp3" = true ->
  let wav := PyPath.replace audio_path ".mp3" ".wav" in
  (forall a : Audio w,
      librosa_load w audio_path = inr a -> sf_write w wav a = None ->
      main w lower args_url (Some audio_path)
      = ((Printed "Загружаю модель..." :: ModelLoad
            :: Printed "Модель загружена!"
            :: Printed "Конвертирую в wav..." :: AudioLoad audio_path
            :: AudioWrite wav :: Printed ("Конвертировано: " ++ wav)
            :: map Printed
                 (stdout (main_report lower wav (pipeline w))))%list,
         match result (main_report lower wav (pipeline w)) with
         | Ok r => Done r
         | Raised e => Stopped (Uncaught e)
         end))
  /\ (forall msg : string,
         librosa_load w audio_path = inl msg ->
         main w lower args_url (Some audio_path)
         = ([ Printed "Загружаю модель..."; ModelLoad;
              Printed "Модель загружена!";
              Printed "Конвертирую в wav..."; AudioLoad audio_path ],
            Stopped (LibraryError msg)))
  /\ (forall (a : Audio w) (msg : string),
         librosa_load w audio_path = inr a ->
         sf_write w wav a = Some msg ->
         main w lower args_url (Some audio_path)
         = ([ Printed "Загружаю модель..."; ModelLoad;
              Printed "Модель загружена!";
              Printed "Конвертирую в wav..."; AudioLoad audio_path;
              AudioWrite wav ],
            Stopped (LibraryError msg))).
Proof.
  intros Hu Hex Hend wav. subst wav.
  assert (Hne : audio_path <> "") by (intros ->; discriminate Hend).
  rewrite (main_with_file w lower args_url audio_path Hu Hne Hex), Hend.
  split; [| split].
  - intros a H1 H2.
    rewrite (convert_to_wav_succeeds w _ _ a H1 H2). reflexivity.
  - intros msg H. rewrite (convert_to_wav_load_fails w _ _ msg H).
    reflexivity.
  - intros a msg H1 H2.
    rewrite (convert_to_wav_write_fails w _ _ msg a H1 H2). reflexivity.
Qed.

Lemma X11_main_converts_local_mp3_witness :
  let w := sample_world (inl "unreachable") None (Some "bad header") true
             [] in
  main w PyStr.lower_ascii None (Some "robin.mp3")
  = ([ Printed "Загружаю модель..."; ModelLoad;
       Printed "Модель загружена!";
       Printed "Конвертирую в wav..."; AudioLoad "robin.mp3" ],
     Stopped (LibraryError "bad header")).
Proof.
  intro w.
  apply (proj1 (proj2 (X11_main_converts_local_mp3 w PyStr.lower_ascii
                         None "robin.mp3" eq_refl eq_refl eq_refl))
           "bad header").
  reflexivity.
Defined.

(** ** [main]: how a run ends *)

Lemma printed_app_report {A} (tr : list event) (out : list string)
    (last_line : string) (r : ended A) :
  last (printed ((tr ++ map Printed (out ++ [last_line]))%list, r)) ""
  = last_line.
Proof.
  unfold printed, trace. cbn [fst].
  rewrite flat_map_app, map_app, flat_map_app. cbn [map flat_map app].
  rewrite app_assoc. apply last_last.
Qed.

Section MainEnds.
Variable w : World.
Variable lower : string -> string.

Lemma report_tail (path : string) :
  (pipeline w path = []
   /\ snd (lift (main_report lower path (pipeline w)))
      = Stopped (Uncaught IndexError))
  \/ (pipeline w path <> []
      /\ exists out : list string,
           lift (main_report lower path (pipeline w))
           = (map Printed (out ++ [footer_line])%list, Done tt)).
Proof.
  rewrite main_report_eq.
  pose proof (PyListFacts.sorted_rev_length score (pipeline w path)) as Hlen.
  destruct (pipeline w path) as [ | p ps] eqn:E.
  - left. split; reflexivity.
  - right. split; [discriminate |].
    destruct (PyList.sorted_rev score (p :: ps)) as [ | q qs];
      [discriminate Hlen |].
    rewrite print_results_cons.
    eexists. unfold lift, stdout, result. cbn [bind fst snd].
    f_equal. f_equal. rewrite !app_assoc. reflexivity.
Qed.

Lemma report_after (tr : list event) (path : string) :
  let run := pbind (tr, Done tt)
               (fun _ => lift (main_report lower path (pipeline w))) in
  (pipeline w path = [] /\ snd run = Stopped (Uncaught IndexError))
  \/ (pipeline w path <> []
      /\ exists (tr' : list event) (out : list string),
           run = ((tr' ++ map Printed (out ++ [footer_line]))%list,
                  Done tt)).
Proof.
  intro run. subst run. rewrite pbind_done.
  destruct (report_tail path) as [[He Hs] | [Hn [out Ho]]].
  - left. split; [exact He | exact Hs].
  - right. split; [exact Hn |]. exists tr, out. rewrite Ho. reflexivity.
Qed.

Lemma convert_then_report (tr : list event) (src : string) :
  let wav := PyPath.replace src ".mp3" ".wav" in
  let run := pbind (tr, Done tt)
               (fun _ =>
                  pbind (convert_to_wav w src wav)
                    (fun _ => lift (main_report lower wav (pipeline w)))) in
  (exists msg : string,
      snd run = Stopped (LibraryError msg)
      /\ (librosa_load w src = inl msg
          \/ exists a : Audio w,
               librosa_load w src = inr a /\ sf_write w wav a = Some msg))
  \/ (pipeline w wav = [] /\ snd run = Stopped (Uncaught IndexError))
  \/ (pipeline w wav <> []
      /\ exists (tr' : list event) (out : list string),
           run = ((tr' ++ map Printed (out ++ [footer_line]))%list,
                  Done tt)).
Proof.
  intros wav run. subst run wav.
  destruct (librosa_load w src) as [msg | a] eqn:Hl.
  - left. exists msg.
    rewrite (convert_to_wav_load_fails w _ _ msg Hl). auto.
  - destruct (sf_write w (PyPath.replace src ".mp3" ".wav") a)
      as [msg | ] eqn:Hw.
    + left. exists msg.
      rewrite (convert_to_wav_write_fails w _ _ msg a Hl Hw).
      split; [reflexivity |]. right. eauto.
    + right. rewrite (convert_to_wav_succeeds w _ _ a Hl Hw).
      rewrite pbind_done. cbn [trace fst snd].
      rewrite pbind_done. cbn [trace fst snd].
      destruct (report_tail (PyPath.replace src ".mp3" ".wav"))
        as [[He Hs] | [Hn [out Ho]]].
      * left. split; [exact He | exact Hs].
      * right. split; [exact Hn |]. eexists. exists out.
        rewrite Ho. cbn [trace fst snd]. rewrite app_assoc. reflexivity.
Qed.

(** The four ways a run of [main] can end. *)
Lemma main_ends (args_url args_file : option string) :
  let run := main w lower args_url args_file in
  snd run = Stopped (SystemExit 1)
  \/ (exists (src msg : string),
         source_path w args_url args_file = Some src
         /\ PyPath.endswith src ".mp3" = true
         /\ snd run = Stopped (LibraryError msg)
         /\ (librosa_load w src = inl msg
             \/ exists a : Audio w,
                  librosa_load w src = inr a
                  /\ sf_write w (PyPath.replace src ".mp3" ".wav") a
                     = Some msg))
  \/ (exists src : string,
         source_path w args_url args_file = Some src
         /\ pipeline w (path_to_classify src) = []
         /\ snd run = Stopped (Uncaught IndexError))
  \/ (exists (src : string) (tr : list event) (out : list string),
         source_path w args_url args_file = Some src
         /\ pipeline w (path_to_classify src) <> []
         /\ run = ((tr ++ map Printed (out ++ [footer_line]))%list,
                   Done tt)).
Proof.
  intro run. subst run.
  destruct (truthy args_url) eqn:Hu.
  - apply truthy_inv in Hu. destruct Hu as [c [r ->]].
    rewrite (main_with_url w lower (String c r) args_file
               ltac:(discriminate)). cbv zeta.
    destruct (download_audio_cases w (String c r)
                (PyPath.join (mkdtemp w) "audio.mp3"))
      as [[resp [_ [_ [_ E]]]] | [msg [written [E _]]]]; rewrite E.
    + right.
      pose proof (convert_then_report
                    [ Printed "Загружаю модель..."; ModelLoad;
                      Printed "Модель загружена!"; MkDTemp;
                      Printed ("Скачиваю: " ++ String c r);
                      HttpGet (String c r);
                      FileWrite (PyPath.join (mkdtemp w) "audio.mp3")
                        (content resp);
                      Printed ("Сохранено: "
                               ++ PyPath.join (mkdtemp w) "audio.mp3") ]
                    (PyPath.join (mkdtemp w) "audio.mp3")) as H.
      cbv zeta in H.
      assert (Hend := join_audio_mp3_ends (mkdtemp w)).
      assert (Hcls : path_to_classify (PyPath.join (mkdtemp w) "audio.mp3")
                     = PyPath.replace (PyPath.join (mkdtemp w) "audio.mp3")
                         ".mp3" ".wav")
        by (unfold path_to_classify; rewrite Hend; reflexivity).
      destruct (convert_to_wav w _ _) as [tr [x | s]];
        (destruct H as [[msg [H1 H2]] | [[H1 H2] | [H1 [tr' [out H2]]]]];
         [ left; exists (PyPath.join (mkdtemp w) "audio.mp3"), msg; auto
         | right; left; exists (PyPath.join (mkdtemp w) "audio.mp3");
           rewrite Hcls; auto
         | right; right;
           exists (PyPath.join (mkdtemp w) "audio.mp3"), tr', out;
           rewrite Hcls; auto ]).
    + left. reflexivity.
  - destruct (truthy args_file) eqn:Hf.
    + apply truthy_inv in Hf. destruct Hf as [c [r ->]].
      assert (Hsrc : source_path w args_url (Some (String c r))
                     = Some (String c r))
        by (destruct args_url as [[ | cu ru] | ];
            [reflexivity | discriminate Hu | reflexivity]).
      rewrite Hsrc.
      destruct (path_exists w (String c r)) eqn:Hex.
      * rewrite (main_with_file w lower args_url (String c r) Hu
                   ltac:(discriminate) Hex).
        unfold path_to_classify.
        destruct (PyPath.endswith (String c r) ".mp3") eqn:Hend.
        -- right. rewrite pbind_then_ret.
           pose proof (convert_then_report
                         [ Printed "Загружаю модель..."; ModelLoad;
                           Printed "Модель загружена!" ]
                         (String c r)) as H.
           cbv zeta in H.
           destruct (convert_to_wav w _ _) as [tr [x | s]];
             (destruct H
                as [[msg [H1 H2]] | [[H1 H2] | [H1 [tr' [out H2]]]]];
              [ left; exists (String c r), msg; auto
              | right; left; exists (String c r); rewrite Hend; auto
              | right; right; exists (String c r), tr', out;
                rewrite Hend; auto ]).
        -- right. right.
           destruct (report_after
                       [ Printed "Загружаю модель..."; ModelLoad;
                         Printed "Модель загружена!" ] (String c r))
             as [[H1 H2] | [H1 [tr' [out H2]]]].
           ++ left. exists (String c r). rewrite Hend. auto.
           ++ right. exists (String c r), tr', out. rewrite Hend. auto.
      * left. unfold main. rewrite Hu. cbn [truthy negb andb].
        destruct args_url as [[ | cu ru] | ]; try discriminate Hu;
          rewrite Hex; reflexivity.
    + left. unfold main. rewrite Hu, Hf. reflexivity.
Qed.

End MainEnds.

(** X12.  How a run of [main] ends, from the parsed arguments on, the
    model loading, the temporary directory being made and the classifier
    returning a list.  If [main] exits by itself, the status is 1.  If it
    ends normally, the classifier gave at least one prediction for the
    path it was handed (the converted path for a recording whose path ends
    with ".mp3", the path of the recording otherwise) and the last record
    printed is the closing rule of the report.  If it ends with an
    [IndexError], the classifier gave no prediction for that path.  If it
    ends with the error of a library, the path of the recording ends with
    ".mp3" and the error is that of decoding it or of writing its
    conversion: an error of the download never ends the run so. *)
Theorem X12_main_ends_in_one_of_four_ways (w : World)
    (lower : string -> string) (args_url args_file : option string) :
  let run := main w lower args_url args_file in
  (forall code : Z, snd run = Stopped (SystemExit code) -> code = 1%Z)
  /\ (forall r : unit,
         snd run = Done r ->
         exists src : string,
           source_path w args_url args_file = Some src
           /\ pipeline w (path_to_classify src) <> []
           /\ last (printed run) "" = footer_line)
  /\ (forall e : exn,
         snd run = Stopped (Uncaught e) ->
         e = IndexError
         /\ exists src : string,
              source_path w args_url args_file = Some src
              /\ pipeline w (path_to_classify src) = [])
  /\ (forall msg : string,
         snd run = Stopped (LibraryError msg) ->
         exists src : string,
           source_path w args_url args_file = Some src
           /\ PyPath.endswith src ".mp3" = true
           /\ (librosa_load w src = inl msg
               \/ exists a : Audio w,
                    librosa_load w src = inr a
                    /\ sf_write w (PyPath.replace src ".mp3" ".wav") a
                       = Some msg)).
Proof.
  intro run.
  destruct (main_ends w lower args_url args_file)
    as [H | [[src [msg [Hs [He [H Hc]]]]]
            | [[src [Hs [Hp H]]] | [src [tr [out [Hs [Hp H]]]]]]]];
    fold run in H.
  - rewrite H. split; [| split; [| split]]; intros x E;
      try discriminate E. injection E as <-. reflexivity.
  - rewrite H. split; [| split; [| split]]; intros x E;
      try discriminate E. injection E as <-. exists src. auto.
  - rewrite H. split; [| split; [| split]]; intros x E;
      try discriminate E.
    split; [destruct x; reflexivity | exists src; auto].
  - rewrite H. cbn [snd]. split; [| split; [| split]]; intros x E;
      try discriminate E.
    exists src. split; [exact Hs | split; [exact Hp |]].
    apply printed_app_report.
Qed.

Lemma X12_main_ends_in_one_of_four_ways_witness :
  let w := sample_world (inl "unreachable") None None true
             [mkPrediction "American Robin" PyFloat.f0_82] in
  let run := main w PyStr.lower_ascii None (Some "robin.wav") in
  exists src : string,
    source_path w None (Some "robin.wav") = Some src
    /\ pipeline w (path_to_classify src) <> []
    /\ last (printed run) "" = footer_line.
Proof.
  intros w run.
  apply (proj1 (proj2 (X12_main_ends_in_one_of_four_ways w
                         PyStr.lower_ascii None (Some "robin.wav")))
           tt).
  reflexivity.
Defined.

(** ** More on the alerts *)

Lemma le_not_nan (x y : PyFloat.float) :
  PyFloat.le x y = true ->
  PyFloat.is_nan x = false /\ PyFloat.is_nan y = false.
Proof.
  destruct x, y; try discriminate; auto.
Qed.

Lemma le_lt_trans (x y z : PyFloat.float) :
  PyFloat.le x y = true -> PyFloat.lt y z = true -> PyFloat.lt x z = true.
Proof.
  intros Hxy Hyz.
  destruct (le_not_nan _ _ Hxy) as [Nx Ny].
  destruct (PyFloatFacts.lt_not_nan _ _ Hyz) as [_ Nz].
  apply PyFloatFacts.le_place in Hxy; auto.
  apply PyFloatFacts.lt_place in Hyz; auto.
  apply PyFloatFacts.lt_place; auto.
  destruct (PyFloat.place x) as [[? ?] ?], (PyFloat.place y) as [[? ?] ?],
    (PyFloat.place z) as [[? ?] ?]; simpl in *; lia.
Qed.

Lemma le_not_lt (x y : PyFloat.float) :
  PyFloat.le y x = true -> PyFloat.lt x y = false.
Proof.
  intro H. destruct (le_not_nan _ _ H) as [Ny Nx].
  destruct (PyFloat.lt x y) eqn:E; [exfalso | reflexivity].
  apply PyFloatFacts.le_place in H; auto.
  apply PyFloatFacts.lt_place in E; auto.
Qed.

Lemma le_neq_lt (x y : PyFloat.float) :
  PyFloat.le x y = true -> PyFloat.eq x y = false -> PyFloat.lt x y = true.
Proof.
  unfold PyFloat.le, PyFloat.eq, PyFloat.lt, SFleb, SFeqb, SFltb.
  destruct (SFcompare x y) as [[ | | ] | ]; intros; congruence.
Qed.

Lemma le_refl (x : PyFloat.float) :
  PyFloat.is_nan x = false -> PyFloat.le x x = true.
Proof.
  intro N. apply PyFloatFacts.le_place; auto.
  destruct (PyFloat.place x) as [[? ?] ?]; simpl; lia.
Qed.

Lemma eq_refl_float (x : PyFloat.float) :
  PyFloat.is_nan x = false -> PyFloat.eq x x = true.
Proof.
  intro N. apply PyFloatFacts.eq_place; auto.
Qed.

Section MoreAlertFacts.
Variable lower : string -> string.

Lemma in_check_alerts (a l : string) (s : PyFloat.float) :
  In a (check_alerts lower l s)
  <-> (a = ALERT_RARE_SPECIES
       /\ PyStr.str_in (lower l) (map lower RARE_SPECIES) = true)
      \/ (a = ALERT_LOW_CONFIDENCE
          /\ PyFloat.lt s LOW_CONFIDENCE_THRESHOLD = true)
      \/ (a = ALERT_UNKNOWN_SOUND
          /\ PyFloat.lt s UNKNOWN_SOUND_THRESHOLD = true).
Proof.
  rewrite check_alerts_parts.
  destruct (PyStr.str_in _ _), (PyFloat.lt s LOW_CONFIDENCE_THRESHOLD),
    (PyFloat.lt s UNKNOWN_SOUND_THRESHOLD); simpl;
    intuition (try discriminate; auto).
Qed.

(** X13.  Lowering the score never removes an alert: every alert raised
    for a score is raised, for the same label, for every score that is
    less than or equal to it. *)
Theorem X13_lower_score_keeps_alerts (l : string)
    (s1 s2 : PyFloat.float) :
  PyFloat.le s1 s2 = true ->
  incl (check_alerts lower l s2) (check_alerts lower l s1).
Proof.
  intros Hle a Hin. apply in_check_alerts in Hin. apply in_check_alerts.
  destruct Hin as [[-> H] | [[-> H] | [-> H]]].
  - left. auto.
  - right. left. split; [reflexivity |].
    apply (le_lt_trans s1 s2); assumption.
  - right. right. split; [reflexivity |].
    apply (le_lt_trans s1 s2); assumption.
Qed.

(** X14.  The rare-species test ignores the case of ASCII letters: two
    ASCII labels that differ only in the case of their letters get the
    same alerts. *)
Theorem X14_alerts_ignore_ascii_case
    (lower_on_ascii :
       forall s : string,
         PyStr.is_ascii s = true -> lower s = PyStr.lower_ascii s)
    (l1 l2 : string) (s : PyFloat.float) :
  PyStr.is_ascii l1 = true -> PyStr.is_ascii l2 = true ->
  PyStr.lower_ascii l1 = PyStr.lower_ascii l2 ->
  check_alerts lower l1 s = check_alerts lower l2 s.
Proof.
  intros A1 A2 E. unfold check_alerts.
  rewrite (lower_on_ascii l1 A1), (lower_on_ascii l2 A2), E. reflexivity.
Qed.

End MoreAlertFacts.

Lemma X13_lower_score_keeps_alerts_witness :
  incl (check_alerts PyStr.lower_ascii "Unknown Noise" PyFloat.f0_4999)
       (check_alerts PyStr.lower_ascii "Unknown Noise" PyFloat.f0_25).
Proof.
  apply (X13_lower_score_keeps_alerts PyStr.lower_ascii "Unknown Noise"
           PyFloat.f0_25 PyFloat.f0_4999).
  reflexivity.
Defined.

Lemma X14_alerts_ignore_ascii_case_witness :
  check_alerts PyStr.lower_ascii "WHOOPING CRANE" PyFloat.f0_65
  = check_alerts PyStr.lower_ascii "Whooping crane" PyFloat.f0_65.
Proof.
  apply (X14_alerts_ignore_ascii_case PyStr.lower_ascii
           (fun s _ => eq_refl) "WHOOPING CRANE" "Whooping crane"
           PyFloat.f0_65);
    reflexivity.
Defined.

(** ** More on the ranking *)

Lemma sorted_rev_fixed {A} (key : A -> PyFloat.float) (l : list A) :
  StronglySorted (PyList.ge_key key) l -> PyList.sorted_rev key l = l.
Proof.
  intro Hs. induction Hs as [ | x r Hr IH Hx]; [reflexivity |].
  cbn [PyList.sorted_rev]. rewrite IH.
  destruct r as [ | y r']; [reflexivity |].
  cbn [PyList.insert_desc].
  inversion Hx as [ | ? ? Hxy _]; subst.
  rewrite (le_not_lt (key x) (key y) Hxy). reflexivity.
Qed.

(** X15.  Ranking is idempotent: given its own result as the output of a
    classifier, [classify_audio] returns it unchanged. *)
Theorem X15_ranking_is_idempotent (audio_path other_path : string)
    (classifier : string -> list Prediction) (ranked : list Prediction) :
  PyList.keys_ordered score (classifier audio_path) ->
  result (classify_audio audio_path classifier) = Ok ranked ->
  result (classify_audio other_path (fun _ => ranked)) = Ok ranked.
Proof.
  intros Hnum H. rewrite classify_audio_ok in *.
  unfold result in *. cbn [snd] in *. injection H as <-.
  f_equal. apply sorted_rev_fixed.
  apply PyListFacts.sorted_rev_sorted. exact Hnum.
Qed.

Lemma X15_ranking_is_idempotent_witness :
  let a := mkPrediction "a" PyFloat.f0_25 in
  let b := mkPrediction "b" PyFloat.f0_82 in
  let c := mkPrediction "c" PyFloat.f0_25 in
  result (classify_audio "again.wav" (fun _ => [b; a; c])) = Ok [b; a; c].
Proof.
  intros a b c.
  apply (X15_ranking_is_idempotent "recording.wav" "again.wav"
           (fun _ => [a; b; c]) [b; a; c]).
  - repeat constructor.
  - reflexivity.
Defined.

Lemma filter_head_split {A} (f : A -> bool) (l : list A) (x : A)
    (tl : list A) :
  filter f l = x :: tl ->
  exists before after : list A,
    l = (before ++ x :: after)%list
    /\ Forall (fun y => f y = false) before.
Proof.
  induction l as [ | y r IH]; [discriminate |].
  cbn [filter]. destruct (f y) eqn:E.
  - intro H. injection H as -> _. exists [], r.
    split; [reflexivity | constructor].
  - intro H. destruct (IH H) as [before [after [-> Hb]]].
    exists (y :: before), after. split; [reflexivity |].
    constructor; assumption.
Qed.

(** X16.  The prediction the report is about is the best one: with at
    least one prediction and no NaN score, [main] reports a prediction
    whose score no other exceeds, and among those with that score the one
    the classifier gave first; its label and score are the records 4 and 5
    of the output, and the alerts shown are the alerts of that
    prediction. *)
Theorem X16_report_is_about_the_best_prediction
    (lower : string -> string) (audio_path : string)
    (classifier : string -> list Prediction) :
  classifier audio_path <> [] ->
  PyList.keys_ordered score (classifier audio_path) ->
  exists (top : Prediction) (before after : list Prediction)
         (rest : list string),
    classifier audio_path = (before ++ top :: after)%list
    /\ (forall q : Prediction,
           In q (classifier audio_path) ->
           PyFloat.le (score q) (score top) = true)
    /\ (forall q : Prediction,
           In q before -> PyFloat.lt (score q) (score top) = true)
    /\ main_report lower audio_path classifier
       = (("Классифицирую..." :: banner_lines
             ++ top_lines top
             ++ alert_block (check_alerts lower (label top) (score top))
             ++ rest)%list,
          Ok tt).
Proof.
  intros Hne Hnum.
  pose proof (PyListFacts.sorted_rev_perm score (classifier audio_path))
    as Hperm.
  pose proof (PyListFacts.sorted_rev_sorted score _ Hnum) as Hsorted.
  pose proof (PyListFacts.sorted_rev_stable score) as Hstable.
  rewrite main_report_eq.
  destruct (PyList.sorted_rev score (classifier audio_path))
    as [ | top rest] eqn:E.
  - apply Permutation_sym, Permutation_nil in Hperm. congruence.
  - assert (Ntop : PyFloat.is_nan (score top) = false).
    { unfold PyList.keys_ordered in Hnum. rewrite Forall_forall in Hnum.
      apply Hnum. apply (Permutation_in _ (Permutation_sym Hperm)).
      left. reflexivity. }
    assert (Hmax : forall q, In q (classifier audio_path) ->
                             PyFloat.le (score q) (score top) = true).
    { intros q Hq. apply (Permutation_in _ Hperm) in Hq.
      destruct Hq as [<- | Hq]; [apply le_refl; exact Ntop |].
      inversion Hsorted as [ | ? ? _ Hall]; subst.
      rewrite Forall_forall in Hall. apply (Hall q Hq). }
    specialize (Hstable (score top) (classifier audio_path)).
    rewrite E in Hstable. unfold PyList.with_key in Hstable.
    cbn [filter] in Hstable. rewrite (eq_refl_float _ Ntop) in Hstable.
    symmetry in Hstable.
    destruct (filter_head_split _ _ _ _ Hstable)
      as [before [after [Hsplit Hbefore]]].
    exists top, before, after. eexists.
    split; [exact Hsplit | split; [exact Hmax | split]].
    + intros q Hq. rewrite Forall_forall in Hbefore.
      apply le_neq_lt; [| apply (Hbefore q Hq)].
      apply Hmax. rewrite Hsplit. apply in_or_app. left. exact Hq.
    + rewrite print_results_cons. cbn [bind]. reflexivity.
Qed.

Lemma X16_report_is_about_the_best_prediction_witness :
  let a := mkPrediction "Unknown Noise" PyFloat.f0_25 in
  let b := mkPrediction "American Robin" PyFloat.f0_82 in
  let c := mkPrediction "Whooping Crane" PyFloat.f0_82 in
  exists (top : Prediction) (before after : list Prediction)
         (rest : list string),
    [a; b; c] = (before ++ top :: after)%list
    /\ (forall q : Prediction,
           In q [a; b; c] -> PyFloat.le (score q) (score top) = true)
    /\ (forall q : Prediction,
           In q before -> PyFloat.lt (score q) (score top) = true)
    /\ main_report PyStr.lower_ascii "recording.wav" (fun _ => [a; b; c])
       = (("Классифицирую..." :: banner_lines
             ++ top_lines top
             ++ alert_block
                  (check_alerts PyStr.lower_ascii (label top) (score top))
             ++ rest)%list,
          Ok tt).
Proof.
  intros a b c.
  apply (X16_report_is_about_the_best_prediction PyStr.lower_ascii
           "recording.wav" (fun _ => [a; b; c])).
  - discriminate.
  - repeat constructor.
Defined.

(** ** More on the report *)

Lemma enumerate_firstn {A} (l : list A) (start : Z) (k : nat) :
  PyList.enumerate (firstn k l) start = firstn k (PyList.enumerate l start).
Proof.
  revert start k. induction l as [ | x r IH]; intros start k.
  - rewrite !firstn_nil. reflexivity.
  - destruct k as [ | k]; [reflexivity |].
    cbn [firstn PyList.enumerate]. rewrite IH. reflexivity.
Qed.

(** X17.  [print_results] accepts any integer as [top_n] for a non-empty
    list: it returns normally and its heading shows [top_n] as given.
    The ranking lines are the first lines of the full numbered list: as
    many as [top_n] when it is between 0 and the number of predictions,
    none for 0, and for a negative [top_n] all but the last [- top_n]
    predictions (none when there are not that many). *)
Theorem X17_ranking_lines_for_any_top_n (lower : string -> string)
    (p : Prediction) (ps : list Prediction) (top_n : Z) :
  let predictions := p :: ps in
  let n := Z.of_nat (List.length predictions) in
  let shown := (if top_n <? 0 then Z.max 0 (top_n + n)
                else Z.min top_n n)%Z in
  result (print_results lower predictions top_n) = Ok tt
  /\ In ("Топ-" ++ PyStr.str_of_int top_n ++ " предсказания:")
        (stdout (print_results lower predictions top_n))
  /\ ranked_lines predictions top_n
     = firstn (Z.to_nat shown)
         (map ranked_line (PyList.enumerate predictions 1))
  /\ Z.of_nat (List.length (ranked_lines predictions top_n)) = shown
  /\ (0 <= shown <= n)%Z.
Proof.
  intros predictions n shown.
  assert (Hrange : (0 <= shown <= n)%Z).
  { subst shown. destruct (Z.ltb_spec top_n 0); lia. }
  assert (Hlines : ranked_lines predictions top_n
                   = firstn (Z.to_nat shown)
                       (map ranked_line (PyList.enumerate predictions 1))).
  { unfold ranked_lines, PyList.slice_to. fold n. fold shown.
    rewrite enumerate_firstn, firstn_map. reflexivity. }
  unfold predictions at 1 2. rewrite print_results_cons.
  unfold result, stdout. cbn [fst snd].
  split; [reflexivity | split; [| split; [exact Hlines | split]]].
  - rewrite !in_app_iff. do 3 right. left. right. left. reflexivity.
  - rewrite Hlines, length_firstn, length_map, enumerate_length.
    fold predictions. fold n. unfold n in *. lia.
  - exact Hrange.
Qed.

Lemma alert_heading_not_elsewhere (lower : string -> string)
    (p : Prediction) (ps : list Prediction) (top_n : Z) :
  ~ In "ОПОВЕЩЕНИЯ:"
      (banner_lines ++ top_lines p ++ ranked_header top_n
         ++ ranked_lines (p :: ps) top_n ++ [footer_line])%list.
Proof.
  rewrite !in_app_iff. intros [H | [H | [H | [H | H]]]].
  - cbn in H. destruct H as [H | [H | [H | []]]]; discriminate H.
  - cbn in H. destruct H as [H | [H | []]]; discriminate H.
  - cbn in H. destruct H as [H | [H | []]]; discriminate H.
  - unfold ranked_lines in H. apply in_map_iff in H.
    destruct H as [[i q] [H _]]. discriminate H.
  - cbn in H. destruct H as [H | []]. discriminate H.
Qed.

(** X18.  The alert block of the report is there exactly when the top
    prediction has an alert: the heading of the block is printed if and
    only if [check_alerts] returns an alert, every alert is then printed
    indented by two spaces, and without an alert the report has just its
    eight fixed records and the ranking lines. *)
Theorem X18_alert_block_only_with_alerts (lower : string -> string)
    (p : Prediction) (ps : list Prediction) (top_n : Z) :
  let out := stdout (print_results lower (p :: ps) top_n) in
  let alerts := check_alerts lower (label p) (score p) in
  (In "ОПОВЕЩЕНИЯ:" out <-> alerts <> [])
  /\ (forall a : string, In a alerts -> In ("  " ++ a) out)
  /\ (alerts = [] ->
      out = (banner_lines ++ top_lines p ++ ranked_header top_n
               ++ ranked_lines (p :: ps) top_n ++ [footer_line])%list)
  /\ List.length out
     = (8 + match alerts with
            | [] => 0
            | _ :: _ => 2 + List.length alerts
            end
        + List.length (ranked_lines (p :: ps) top_n))%nat.
Proof.
  intros out alerts. subst out. rewrite print_results_cons.
  unfold stdout. cbn [fst]. fold alerts.
  pose proof (alert_heading_not_elsewhere lower p ps top_n) as Hnot.
  split; [| split; [| split]].
  - split.
    + intros Hin Hnil. rewrite Hnil in Hin. cbn [alert_block app] in Hin.
      apply Hnot. rewrite !in_app_iff in *. tauto.
    + intro Hne. destruct alerts as [ | a r]; [congruence |].
      rewrite !in_app_iff. right. right. left.
      cbn [alert_block]. right. left. reflexivity.
  - intros a Ha. destruct alerts as [ | a0 r]; [destruct Ha |].
    rewrite !in_app_iff. right. right. left.
    cbn [alert_block]. right. right.
    apply (in_map alert_line) in Ha. exact Ha.
  - intros ->. reflexivity.
  - rewrite !length_app.
    destruct alerts as [ | a r]; cbn [alert_block List.length];
      rewrite ?length_map; cbn [banner_lines top_lines ranked_header
                                 List.length]; lia.
Qed.

Lemma X18_alert_block_only_with_alerts_witness :
  let p := mkPrediction "Whooping Crane" PyFloat.f0_65 in
  In ("  " ++ ALERT_RARE_SPECIES)
     (stdout (print_results PyStr.lower_ascii [p] 3)).
Proof.
  intro p.
  apply (proj1 (proj2 (X18_alert_block_only_with_alerts PyStr.lower_ascii
                         p [] 3%Z)) ALERT_RARE_SPECIES).
  left. reflexivity.
Defined.

(** ** The ranking and the order of the classifier's output *)

Lemma le_antisym_eq (x y : PyFloat.float) :
  PyFloat.le x y = true -> PyFloat.le y x = true -> PyFloat.eq x y = true.
Proof.
  intros Hxy Hyx. destruct (le_not_nan _ _ Hxy) as [Nx Ny].
  apply PyFloatFacts.le_place in Hxy; auto.
  apply PyFloatFacts.le_place in Hyx; auto.
  apply PyFloatFacts.eq_place; auto.
  destruct (PyFloat.place x) as [[a1 a2] a3],
    (PyFloat.place y) as [[b1 b2] b3]; simpl in *.
  assert (a1 = b1 /\ a2 = b2 /\ a3 = b3) as [-> [-> ->]] by lia.
  reflexivity.
Qed.

(** Two descending lists with the same items are the same list, when items
    that may stand either way round are the same item. *)
Lemma sorted_perm_unique {A} (R : A -> A -> Prop) (l1 l2 : list A) :
  (forall a b : A, In a l1 -> In b l1 -> R a b -> R b a -> a = b) ->
  StronglySorted R l1 -> StronglySorted R l2 -> Permutation l1 l2 ->
  l1 = l2.
Proof.
  revert l2. induction l1 as [ | x r1 IH]; intros l2 Hanti S1 S2 Hp.
  - apply Permutation_nil in Hp. congruence.
  - destruct l2 as [ | y r2].
    + apply Permutation_sym, Permutation_nil in Hp. discriminate Hp.
    + inversion S1 as [ | ? ? S1' F1]; subst.
      inversion S2 as [ | ? ? S2' F2]; subst.
      rewrite Forall_forall in F1, F2.
      assert (Hy : In y (x :: r1))
        by (apply (Permutation_in _ (Permutation_sym Hp)); left; reflexivity).
      assert (Hx : In x (y :: r2))
        by (apply (Permutation_in _ Hp); left; reflexivity).
      assert (E : x = y).
      { destruct Hy as [E | Hy]; [exact E |].
        destruct Hx as [E | Hx]; [symmetry; exact E |].
        apply Hanti; [left; reflexivity | right; exact Hy | |].
        - apply F1. exact Hy.
        - apply F2. exact Hx. }
      subst y. f_equal. apply IH; try assumption.
      * intros a b Ha Hb. apply Hanti; right; assumption.
      * apply (Permutation_cons_inv Hp).
Qed.

(** X19.  When predictions with equal scores are equal predictions (no
    ties between different predictions) and no score is NaN, the ranking
    does not depend on the order in which the classifier lists its
    predictions. *)
Theorem X19_ranking_ignores_input_order (path1 path2 : string)
    (preds1 preds2 : list Prediction) :
  Permutation preds1 preds2 ->
  PyList.keys_ordered score preds1 ->
  (forall a b : Prediction,
      In a preds1 -> In b preds1 ->
      PyFloat.eq (score a) (score b) = true -> a = b) ->
  result (classify_audio path1 (fun _ => preds1))
  = result (classify_audio path2 (fun _ => preds2)).
Proof.
  intros Hp Hnum Hties. rewrite !classify_audio_ok.
  unfold result. cbn [snd]. f_equal.
  assert (Hnum2 : PyList.keys_ordered score preds2)
    by (apply (Permutation_Forall Hp); exact Hnum).
  pose proof (PyListFacts.sorted_rev_perm score preds1) as P1.
  pose proof (PyListFacts.sorted_rev_perm score preds2) as P2.
  apply (sorted_perm_unique (PyList.ge_key score)).
  - intros a b Ha Hb Hab Hba. unfold PyList.ge_key in *.
    apply Hties.
    + apply (Permutation_in _ (Permutation_sym P1)). exact Ha.
    + apply (Permutation_in _ (Permutation_sym P1)). exact Hb.
    + apply le_antisym_eq; assumption.
  - apply PyListFacts.sorted_rev_sorted. exact Hnum.
  - apply PyListFacts.sorted_rev_sorted. exact Hnum2.
  - eapply Permutation_trans; [apply Permutation_sym; exact P1 |].
    eapply Permutation_trans; [exact Hp | exact P2].
Qed.

Lemma X19_ranking_ignores_input_order_witness :
  let a := mkPrediction "Unknown Noise" PyFloat.f0_25 in
  let b := mkPrediction "American Robin" PyFloat.f0_82 in
  let c := mkPrediction "Whooping Crane" PyFloat.f0_65 in
  result (classify_audio "one.wav" (fun _ => [a; b; c]))
  = result (classify_audio "two.wav" (fun _ => [b; a; c])).
Proof.
  intros a b c.
  apply (X19_ranking_ignores_input_order "one.wav" "two.wav"
           [a; b; c] [b; a; c]).
  - apply perm_swap.
  - repeat constructor.
  - intros x y Hx Hy.
    destruct Hx as [<- | [<- | [<- | []]]];
      destruct Hy as [<- | [<- | [<- | []]]];
      intro E; try reflexivity; discriminate E.
Defined.

(** ** [convert_to_wav] *)

(** X20.  [convert_to_wav] reads only its input and writes only to its
    output path, and only once the input was decoded.  When it returns,
    it returns the output path and both the decoding and the writing have
    succeeded; it catches no error, so that otherwise it ends with the
    error of the library.  It fetches nothing and writes no other file. *)
Theorem X20_convert_to_wav_reads_then_writes (w : World)
    (input_path output_path : string) :
  let run := convert_to_wav w input_path output_path in
  (forall path : string, In (AudioLoad path) (trace run) ->
                         path = input_path)
  /\ (forall path : string,
         In (AudioWrite path) (trace run) ->
         path = output_path
         /\ exists a : Audio w, librosa_load w input_path = inr a)
  /\ (forall returned : string,
         snd run = Done returned ->
         returned = output_path
         /\ exists a : Audio w,
              librosa_load w input_path = inr a
              /\ sf_write w output_path a = None)
  /\ (forall s : stop,
         snd run = Stopped s ->
         exists msg : string,
           s = LibraryError msg
           /\ (librosa_load w input_path = inl msg
               \/ exists a : Audio w,
                    librosa_load w input_path = inr a
                    /\ sf_write w output_path a = Some msg))
  /\ (forall e : event,
         In e (trace run) ->
         match e with
         | HttpGet _ | FileWrite _ _ | ModelLoad | MkDTemp => False
         | _ => True
         end).
Proof.
  intro run. subst run.
  destruct (librosa_load w input_path) as [msg | a] eqn:Hl.
  - rewrite (convert_to_wav_load_fails w _ _ msg Hl).
    cbn [trace fst snd].
    split; [| split; [| split; [| split]]].
    + intros path H. cbn [In] in H.
      intuition (try discriminate; congruence).
    + intros path H. cbn [In] in H. intuition discriminate.
    + intros returned H. discriminate H.
    + intros s H. injection H as <-. exists msg. auto.
    + intros e H. cbn [In] in H. intuition (subst; exact I).
  - destruct (sf_write w output_path a) as [msg | ] eqn:Hw.
    + rewrite (convert_to_wav_write_fails w _ _ msg a Hl Hw).
      cbn [trace fst snd].
      split; [| split; [| split; [| split]]].
      * intros path H. cbn [In] in H.
        intuition (try discriminate; congruence).
      * intros path H. cbn [In] in H.
        split; [intuition (try discriminate; congruence) | exists a; auto].
      * intros returned H. discriminate H.
      * intros s H. injection H as <-. exists msg. split; [reflexivity |].
        right. exists a. auto.
      * intros e H. cbn [In] in H. intuition (subst; exact I).
    + rewrite (convert_to_wav_succeeds w _ _ a Hl Hw).
      cbn [trace fst snd].
      split; [| split; [| split; [| split]]].
      * intros path H. cbn [In] in H.
        intuition (try discriminate; congruence).
      * intros path H. cbn [In] in H.
        split; [intuition (try discriminate; congruence) | exists a; auto].
      * intros returned H. injection H as <-.
        split; [reflexivity | exists a; auto].
      * intros s H. discriminate H.
      * intros e H. cbn [In] in H. intuition (subst; exact I).
Qed.

Lemma X20_convert_to_wav_reads_then_writes_witness :
  let w := sample_world (inl "unreachable") None None true [] in
  "robin.wav" = "robin.wav"
  /\ exists a : Audio w,
       librosa_load w "robin.mp3" = inr a
       /\ sf_write w "robin.wav" a = None.
Proof.
  intro w.
  apply (proj1 (proj2 (proj2 (X20_convert_to_wav_reads_then_writes w
                                "robin.mp3" "robin.wav")))
           "robin.wav").
  reflexivity.
Defined.

Lemma X7_download_audio_reports_each_failure_witness :
  let w := sample_world (inr (mkResponse (Some "404 Client Error") ""))
             None None true [] in
  download_audio w "https://xeno-canto.org/1" "/tmp/audio.mp3"
  = ([ Printed ("Скачиваю: " ++ "https://xeno-canto.org/1");
       HttpGet "https://xeno-canto.org/1";
       Printed ("Ошибка при скачивании: " ++ "404 Client Error") ],
     Done false).
Proof.
  intro w.
  apply (proj1 (proj2 (X7_download_audio_reports_each_failure w
                         "https://xeno-canto.org/1" "/tmp/audio.mp3"))
           (mkResponse (Some "404 Client Error") "") "404 Client Error");
    reflexivity.
Defined.
